(** * Dozlab session manager: a shallow embedding of
      [examples/kubernetes-api/python/create_session.py]

    The development follows the Python file from top to bottom:

    - Python values as they come out of [yaml.safe_load_all], with
      truthiness and [dict.get];
    - [string.Template.safe_substitute], the substitution engine used on the
      manifest template;
    - the canonical resource names built by the f-strings of
      [delete_session] and [get_session_status];
    - the Kubernetes client ([CoreV1Api]), the YAML parser and the random
      token source as an interface the manager is written against;
    - a state-and-exception monad for the methods of
      [DozlabSessionManager], which call the cluster, print and raise;
    - the methods [create_session], [delete_session], [list_sessions],
      [get_session_status] and [_generate_password];
    - an in-memory cluster implementing the interface, on which the
      methods can be run;
    - the properties of the specification, stated on these definitions. *)

From Stdlib Require Import Ascii String ZArith.
From stdpp Require Import base strings list gmap pretty.

Open Scope string_scope.
Open Scope list_scope.

(** ** Python values produced by the YAML parser *)

(** A document returned by [yaml.safe_load_all] is an arbitrary Python
    object.  [YOther] stands for the objects the manager never looks into
    (floats, timestamps, binary data, sets): all the code can observe of
    them is their truth value. *)
#[warnings="-register-all"]
Inductive Yaml : Type :=
  | YNull
  | YBool (b : bool)
  | YInt (n : Z)
  | YStr (s : string)
  | YSeq (items : list Yaml)
  | YMap (entries : list (Yaml * Yaml))
  | YOther (truth : bool).

(** [bool(x)], as tested by [if not resource]. *)
Definition truthy (v : Yaml) : bool :=
  match v with
  | YNull => false
  | YBool b => b
  | YInt n => negb (n =? 0)%Z
  | YStr s => negb (String.eqb s "")
  | YSeq items => match items with [] => false | _ :: _ => true end
  | YMap entries => match entries with [] => false | _ :: _ => true end
  | YOther truth => truth
  end.

(** [key == 'k'] for a string literal ['k']: only a [str] equals a [str]. *)
Definition is_str (k : string) (v : Yaml) : bool :=
  match v with
  | YStr s => String.eqb s k
  | _ => false
  end.

(** Lookup of a string key in a parsed mapping.  A Python [dict] holds a
    key once, so the entry found is the entry. *)
Fixpoint dict_lookup (k : string) (entries : list (Yaml * Yaml)) : option Yaml :=
  match entries with
  | [] => None
  | (k', v) :: rest => if is_str k k' then Some v else dict_lookup k rest
  end.

(** ** [string.Template]

    The pattern of [string.Template] is, with the flags [re.IGNORECASE] and
    [re.VERBOSE] and the default delimiter and identifier pattern,
<<
    \$(?:
      (?P<escaped>\$)                              |
      (?P<named>  (?a:[_a-z][_a-z0-9]* ) )         |
      {(?P<braced> (?a:[_a-z][_a-z0-9]* ) )}       |
      (?P<invalid>)
    )
>>
    and [safe_substitute] is [pattern.sub(convert, template)]. *)
Module Template.

Definition is_idstart (c : ascii) : bool :=
  let n := nat_of_ascii c in
  (n =? 95)%nat || ((97 <=? n) && (n <=? 122))%nat || ((65 <=? n) && (n <=? 90))%nat.

Definition is_idchar (c : ascii) : bool :=
  let n := nat_of_ascii c in
  is_idstart c || ((48 <=? n) && (n <=? 57))%nat.

(** The greedy run of identifier characters at the head of a text. *)
Fixpoint idrun (s : string) : string :=
  match s with
  | String c rest => if is_idchar c then String c (idrun rest) else ""
  | "" => ""
  end.

Fixpoint drop (n : nat) (s : string) : string :=
  match n, s with
  | S k, String _ rest => drop k rest
  | _, _ => s
  end.

(** What the pattern matched at a ["$"]: the group that took part. *)
Inductive match_object : Type :=
  | Escaped
  | Named (name : string)
  | Braced (name : string)
  | Invalid.

(** The alternatives are tried in order on the text that follows the
    delimiter.  The identifier class excludes ["}"], so the braced
    alternative succeeds exactly when the greedy run is followed by
    ["}"]; [invalid] matches the empty text. *)
Definition match_at (rest : string) : match_object :=
  match rest with
  | String c after =>
      if Ascii.eqb c "$"%char then Escaped
      else if is_idstart c then Named (idrun rest)
      else if Ascii.eqb c "{"%char then
        match after with
        | String c' _ =>
            if is_idstart c' then
              match drop (String.length (idrun after)) after with
              | String close _ =>
                  if Ascii.eqb close "}"%char then Braced (idrun after) else Invalid
              | "" => Invalid
              end
            else Invalid
        | "" => Invalid
        end
      else Invalid
  | "" => Invalid
  end.

(** [mo.group()], the whole matched text. *)
Definition group (mo : match_object) : string :=
  match mo with
  | Escaped => "$$"
  | Named name => "$" +:+ name
  | Braced name => "${" +:+ name +:+ "}"
  | Invalid => "$"
  end.

(** Number of characters matched after the delimiter. *)
Definition span (mo : match_object) : nat :=
  match mo with
  | Escaped => 1
  | Named name => String.length name
  | Braced name => String.length name + 2
  | Invalid => 0
  end.

(** The closure [convert] of [safe_substitute]: a missing key gives the
    matched text back ([except KeyError: return mo.group()]). *)
Definition convert (mapping : gmap string string) (mo : match_object) : string :=
  match mo with
  | Named name | Braced name =>
      match mapping !! name with
      | Some value => value
      | None => group mo
      end
  | Escaped => "$"
  | Invalid => group mo
  end.

(** [pattern.sub(repl, text)]: scan from the left; at a delimiter the
    match is replaced and the scan resumes after it ([skip] counts the
    characters of the match still to be passed). *)
Fixpoint pattern_sub (repl : match_object → string) (skip : nat) (text : string) : string :=
  match text with
  | "" => ""
  | String c rest =>
      match skip with
      | S k => pattern_sub repl k rest
      | O =>
          if Ascii.eqb c "$"%char
          then repl (match_at rest) +:+ pattern_sub repl (span (match_at rest)) rest
          else String c (pattern_sub repl 0 rest)
      end
  end.

Definition safe_substitute (template : string) (mapping : gmap string string) : string :=
  pattern_sub (convert mapping) 0 template.

(** The same scan, keeping the pieces apart: the characters outside any
    match and the matches, in order ([pattern.finditer]). *)
Inductive piece : Type :=
  | Text (c : ascii)
  | Match (mo : match_object).

Fixpoint pieces_from (skip : nat) (text : string) : list piece :=
  match text with
  | "" => []
  | String c rest =>
      match skip with
      | S k => pieces_from k rest
      | O =>
          if Ascii.eqb c "$"%char
          then Match (match_at rest) :: pieces_from (span (match_at rest)) rest
          else Text c :: pieces_from 0 rest
      end
  end.

Definition pieces (template : string) : list piece := pieces_from 0 template.

(** The text a piece occupies in the template. *)
Definition piece_text (p : piece) : string :=
  match p with
  | Text c => String c ""
  | Match mo => group mo
  end.

(** The name a piece asks for, when it is a placeholder. *)
Definition placeholder (p : piece) : option string :=
  match p with
  | Match (Named name) | Match (Braced name) => Some name
  | _ => None
  end.

Fixpoint join (parts : list string) : string :=
  match parts with
  | [] => ""
  | part :: rest => part +:+ join rest
  end.

(** An identifier of the pattern: a letter or underscore, then letters,
    digits and underscores (ASCII, either case). *)
Fixpoint all_idchar (s : string) : bool :=
  match s with
  | "" => true
  | String c rest => is_idchar c && all_idchar rest
  end.

Definition is_identifier (s : string) : bool :=
  match s with
  | "" => false
  | String c rest => is_idstart c && all_idchar rest
  end.

Fixpoint no_delimiter (s : string) : bool :=
  match s with
  | "" => true
  | String c rest => negb (Ascii.eqb c "$"%char) && no_delimiter rest
  end.

(** What [pattern.sub] puts for a piece. *)
Definition render (repl : match_object → string) (p : piece) : string :=
  match p with
  | Text c => String c ""
  | Match mo => repl mo
  end.

(** *** The placeholders of a template, as the documentation of
    [string.Template] words them

    ["$$"] is an escape; ["$identifier"] names a placeholder, and the first
    character that cannot be part of an identifier ends it;
    ["${identifier}"] is the same placeholder, with the braces marking its
    end; any other ["$"] stands for itself under [safe_substitute].  This
    reading of a text does not look at the matcher above. *)

(** The identifier cannot go on into the text that follows. *)
Definition ends_identifier (s : string) : Prop :=
  match s with
  | String c _ => is_idchar c = false
  | "" => True
  end.

(** A text that, after a delimiter, starts none of the three forms. *)
Definition lone (s : string) : Prop :=
  (∀ t, s ≠ "$" +:+ t)
  ∧ (∀ name t, is_identifier name = true → s ≠ name +:+ t)
  ∧ (∀ name t, is_identifier name = true → s ≠ "{" +:+ name +:+ "}" +:+ t).

Inductive Scans : string → list piece → Prop :=
  | scans_end : Scans "" []
  | scans_text c s ps :
      c ≠ "$"%char → Scans s ps → Scans (String c s) (Text c :: ps)
  | scans_escaped s ps :
      Scans s ps → Scans ("$$" +:+ s) (Match Escaped :: ps)
  | scans_named name s ps :
      is_identifier name = true → ends_identifier s → Scans s ps →
      Scans ("$" +:+ name +:+ s) (Match (Named name) :: ps)
  | scans_braced name s ps :
      is_identifier name = true → Scans s ps →
      Scans ("${" +:+ name +:+ "}" +:+ s) (Match (Braced name) :: ps)
  | scans_lone s ps :
      lone s → Scans s ps → Scans ("$" +:+ s) (Match Invalid :: ps).

End Template.

(** ** Canonical names

    The three f-strings of [delete_session]; [get_session_status] builds
    [pod_name] the same way. *)
Definition pod_name (session_id : string) : string := "lab-session-" +:+ session_id.
Definition service_name (session_id : string) : string := "lab-service-" +:+ session_id.
Definition secret_name (session_id : string) : string :=
  "lab-session-" +:+ session_id +:+ "-secrets".

(** ** The Kubernetes client, the YAML parser and the token source

    What the manager imports: [kubernetes.client], [yaml] and [secrets].
    Their behaviour is not part of the repository, so the manager is written
    against an interface and the properties are proved for every
    implementation of it.  A request to the API server is answered with an
    object or with an [ApiException], the error the manager catches. *)

(** [kubernetes.client.rest.ApiException]. *)
Record ApiException : Type := {
  status : Z;
  reason : string;
  body : string;
}.

(** The three resource kinds of [CoreV1Api] the manager uses. *)
Inductive Kind : Type := Pod | Service | Secret.

(** [V1Pod], as far as [get_session_status] and [list_sessions] read it:
    [metadata.labels], the label dictionary the methods read with [.get],
    which the client leaves [None] for a pod that carries no labels;
    [metadata.creation_timestamp]; [status.phase]; and
    [status.container_statuses], which the method tests before it iterates
    ([None] until the kubelet reports). *)
Record V1ContainerStatus (State : Type) : Type := {
  cs_name : string;
  cs_ready : bool;
  cs_restart_count : Z;
  cs_state : State;
}.
Arguments cs_name {State} _.
Arguments cs_ready {State} _.
Arguments cs_restart_count {State} _.
Arguments cs_state {State} _.

Record V1Pod (State : Type) : Type := {
  labels : option (gmap string string);
  creation_timestamp : string;
  pod_phase : string;
  container_statuses : option (list (V1ContainerStatus State));
}.
Arguments labels {State} _.
Arguments creation_timestamp {State} _.
Arguments pod_phase {State} _.
Arguments container_statuses {State} _.

(** [yaml.YAMLError]. *)
Record YAMLError : Type := { problem : string }.

Class Platform : Type := {
  (** the cluster behind the API server *)
  Cluster : Type;
  (** the object a create call answers with ([V1Pod], [V1Service], [V1Secret]) *)
  Ack : Type;
  (** [V1ContainerState] and its [str()] *)
  ContainerState : Type;
  str_state : ContainerState → string;
  (** the operating system's randomness *)
  Entropy : Type;
  (** [create_namespaced_pod/service/secret(namespace, body)] *)
  create_namespaced : Kind → string → Yaml → Cluster → (ApiException + Ack) * Cluster;
  (** [delete_namespaced_pod/service/secret(name, namespace)] *)
  delete_namespaced : Kind → string → string → Cluster → (ApiException + ()) * Cluster;
  (** [read_namespaced_pod(name, namespace)] *)
  read_namespaced_pod : string → string → Cluster → (ApiException + V1Pod ContainerState) * Cluster;
  (** [list(yaml.safe_load_all(text))] *)
  safe_load_all : string → YAMLError + list Yaml;
  (** [secrets.token_urlsafe(nbytes)] *)
  token_urlsafe : nat → Entropy → string * Entropy;
  (** the text an f-string puts for a parsed value *)
  format_value : Yaml → string;
}.

(** ** Exceptions, the world and the monad of the methods *)

Inductive Exception : Type :=
  | ApiError (e : ApiException)
  | YamlError (e : YAMLError)
  | AttributeError (obj : Yaml) (attr : string).

Inductive Outcome (A : Type) : Type :=
  | Return (a : A)
  | Raise (e : Exception).
Arguments Return {A} _.
Arguments Raise {A} _.

Section Manager.
Context `{P : Platform}.

(** One request sent to the API server, with its answer.  The log of
    calls is kept next to the cluster to state which requests a method
    issued. *)
Inductive Call : Type :=
  | CreateCall (kind : Kind) (namespace : string) (manifest : Yaml)
      (answer : ApiException + Ack)
  | DeleteCall (kind : Kind) (name namespace : string) (answer : ApiException + ())
  | ReadPodCall (name namespace : string) (answer : ApiException + V1Pod ContainerState).

Record World : Type := {
  cluster : Cluster;
  entropy : Entropy;
  stdout : list string;
  calls : list Call;
}.

Definition Py (A : Type) : Type := World → Outcome A * World.

Definition ret {A} (a : A) : Py A := λ w, (Return a, w).

Definition bind {A B} (m : Py A) (k : A → Py B) : Py B :=
  λ w, match m w with
       | (Return a, w') => k a w'
       | (Raise e, w') => (Raise e, w')
       end.

Definition raise {A} (e : Exception) : Py A := λ w, (Raise e, w).

(** [try: body / except ApiException as e: handler e]. *)
Definition try_except {A} (body : Py A) (handler : ApiException → Py A) : Py A :=
  λ w, match body w with
       | (Raise (ApiError e), w') => handler e w'
       | other => other
       end.

Definition print (line : string) : Py () :=
  λ w, (Return (), {| cluster := cluster w; entropy := entropy w;
                      stdout := stdout w ++ [line]; calls := calls w |}).

Definition log (c : Call) (cl : Cluster) (w : World) : World :=
  {| cluster := cl; entropy := entropy w; stdout := stdout w; calls := calls w ++ [c] |}.

Definition answer_of {A} (r : ApiException + A) : Outcome A :=
  match r with
  | inl e => Raise (ApiError e)
  | inr a => Return a
  end.

Definition api_create (kind : Kind) (namespace : string) (manifest : Yaml) : Py Ack :=
  λ w, let '(r, cl) := create_namespaced kind namespace manifest (cluster w) in
       (answer_of r, log (CreateCall kind namespace manifest r) cl w).

Definition api_delete (kind : Kind) (name namespace : string) : Py () :=
  λ w, let '(r, cl) := delete_namespaced kind name namespace (cluster w) in
       (answer_of r, log (DeleteCall kind name namespace r) cl w).

Definition api_read_pod (name namespace : string) : Py (V1Pod ContainerState) :=
  λ w, let '(r, cl) := read_namespaced_pod name namespace (cluster w) in
       (answer_of r, log (ReadPodCall name namespace r) cl w).

Definition load_all (text : string) : Py (list Yaml) :=
  match safe_load_all text with
  | inl e => raise (YamlError e)
  | inr documents => ret documents
  end.

(** [obj.get(key, default)]: defined on a mapping only. *)
Definition get (obj : Yaml) (key : string) (default : Yaml) : Py Yaml :=
  match obj with
  | YMap entries =>
      match dict_lookup key entries with
      | Some v => ret v
      | None => ret default
      end
  | _ => raise (AttributeError obj "get")
  end.

(** [pod.metadata.labels], on which the methods call [.get]: [None] has no
    such attribute. *)
Definition pod_labels {State : Type} (pod : V1Pod State) : Py (gmap string string) :=
  match labels pod with
  | Some ls => ret ls
  | None => raise (AttributeError YNull "get")
  end.

End Manager.

#[global] Instance py_ret `{Platform} : MRet Py := @ret _.
#[global] Instance py_bind `{Platform} : MBind Py := λ A B k m, bind m k.

(** ** [DozlabSessionManager] *)

(** The attributes [__init__] sets: the namespace and the text of
    [lab-pod-with-sidecar.yaml]; [self.core_v1] is the platform. *)
Record DozlabSessionManager : Type := {
  namespace : string;
  template : string;
}.

(** The keyword options of [create_session], as its docstring lists them;
    [None] is an option the caller left out. *)
Record Kwargs : Type := {
  vscode_password : option string;
  disk_size : option string;
  vm_cpu : option Z;
  vm_memory : option Z;
  terminal_image : option string;
  vm_memory_limit : option string;
  vm_cpu_limit : option string;
  vm_memory_request : option string;
  vm_cpu_request : option string;
  kernel_size_limit : option string;
  vm_data_size_limit : option string;
  vscode_data_size_limit : option string;
}.

Definition no_kwargs : Kwargs :=
  {| vscode_password := None; disk_size := None; vm_cpu := None; vm_memory := None;
     terminal_image := None; vm_memory_limit := None; vm_cpu_limit := None;
     vm_memory_request := None; vm_cpu_request := None; kernel_size_limit := None;
     vm_data_size_limit := None; vscode_data_size_limit := None |}.

Definition with_password (kwargs : Kwargs) (password : option string) : Kwargs :=
  {| vscode_password := password; disk_size := disk_size kwargs; vm_cpu := vm_cpu kwargs;
     vm_memory := vm_memory kwargs; terminal_image := terminal_image kwargs;
     vm_memory_limit := vm_memory_limit kwargs; vm_cpu_limit := vm_cpu_limit kwargs;
     vm_memory_request := vm_memory_request kwargs; vm_cpu_request := vm_cpu_request kwargs;
     kernel_size_limit := kernel_size_limit kwargs;
     vm_data_size_limit := vm_data_size_limit kwargs;
     vscode_data_size_limit := vscode_data_size_limit kwargs |}.

(** The dictionary [variables] of [create_session]. *)
Definition variables (session_id user_id rootfs_url vscode_password : string)
    (kwargs : Kwargs) : gmap string string :=
  <["SESSION_ID" := session_id]> (
  <["USER_ID" := user_id]> (
  <["ROOTFS_IMAGE_URL" := rootfs_url]> (
  <["VSCODE_PASSWORD" := vscode_password]> (
  <["DISK_SIZE" := default "4G" (disk_size kwargs)]> (
  <["VM_CPU" := pretty (default 1%Z (vm_cpu kwargs))]> (
  <["VM_MEMORY" := pretty (default 1024%Z (vm_memory kwargs))]> (
  <["TERMINAL_IMAGE" := default "dozman99/dozlab-terminal:latest" (terminal_image kwargs)]> (
  <["VM_MEMORY_LIMIT" := default "2Gi" (vm_memory_limit kwargs)]> (
  <["VM_CPU_LIMIT" := default "1500m" (vm_cpu_limit kwargs)]> (
  <["VM_MEMORY_REQUEST" := default "1Gi" (vm_memory_request kwargs)]> (
  <["VM_CPU_REQUEST" := default "500m" (vm_cpu_request kwargs)]> (
  <["KERNEL_SIZE_LIMIT" := default "2Gi" (kernel_size_limit kwargs)]> (
  <["VM_DATA_SIZE_LIMIT" := default "5Gi" (vm_data_size_limit kwargs)]> (
  <["VSCODE_DATA_SIZE_LIMIT" := default "1Gi" (vscode_data_size_limit kwargs)]> ∅)))))))))))))).

(** ["="*70]. *)
Fixpoint times (s : string) (n : nat) : string :=
  match n with
  | O => ""
  | S k => s +:+ times s k
  end.

(** The key of [created] a kind is stored under. *)
Definition created_key (kind : Kind) : string :=
  match kind with
  | Pod => "pod"
  | Service => "service"
  | Secret => "secret"
  end.

(** One entry of the [containers] list and the dictionary
    [get_session_status] returns. *)
Record ContainerInfo : Type := {
  ci_name : string;
  ci_ready : bool;
  ci_restart_count : Z;
  ci_state : string;
}.

Record SessionStatus : Type := {
  st_session_id : string;
  st_user_id : option string;
  st_phase : string;
  st_created : string;
  st_containers : list ContainerInfo;
}.

Section Methods.
Context `{P : Platform}.

(** [_generate_password(length)]. *)
Definition _generate_password (length : nat) : Py string :=
  λ w, let '(token, rest) := token_urlsafe length (entropy w) in
       (Return token, {| cluster := cluster w; entropy := rest;
                         stdout := stdout w; calls := calls w |}).

(** [kwargs.get('vscode_password') or self._generate_password()]: the
    right operand is evaluated when the left one is falsy, that is [None]
    or the empty string. *)
Definition resolve_password (kwargs : Kwargs) : Py string :=
  match vscode_password kwargs with
  | Some supplied =>
      if negb (String.eqb supplied "") then mret supplied else _generate_password 32
  | None => _generate_password 32
  end.

Fixpoint print_items (items : list string) : Py () :=
  match items with
  | [] => mret ()
  | item :: rest => print ("  - " +:+ item);; print_items rest
  end.

Definition delete_session (self : DozlabSessionManager) (session_id : string) : Py () :=
  let pod_name := pod_name session_id in
  let service_name := service_name session_id in
  let secret_name := secret_name session_id in
  let deleted : list string := [] in
  (* Delete Pod *)
  deleted ← try_except
    (api_delete Pod pod_name (namespace self);;
     mret (deleted ++ ["Pod: " +:+ pod_name]))
    (λ e, (if negb (status e =? 404)%Z
           then print ("Warning: Failed to delete pod: " +:+ reason e)
           else mret ());;
          mret deleted);
  (* Delete Service *)
  deleted ← try_except
    (api_delete Service service_name (namespace self);;
     mret (deleted ++ ["Service: " +:+ service_name]))
    (λ e, (if negb (status e =? 404)%Z
           then print ("Warning: Failed to delete service: " +:+ reason e)
           else mret ());;
          mret deleted);
  (* Delete Secret *)
  deleted ← try_except
    (api_delete Secret secret_name (namespace self);;
     mret (deleted ++ ["Secret: " +:+ secret_name]))
    (λ e, (if negb (status e =? 404)%Z
           then print ("Warning: Failed to delete secret: " +:+ reason e)
           else mret ());;
          mret deleted);
  match deleted with
  | _ :: _ =>
      print ("✓ Deleted session " +:+ session_id +:+ ":");;
      print_items deleted
  | [] => print ("✗ Session " +:+ session_id +:+ " not found")
  end.

(** The body of the [for resource in resources] loop and the loop. *)
Definition create_resource (self : DozlabSessionManager) (session_id : string)
    (resource : Yaml) (created : gmap string Ack) : Py (gmap string Ack) :=
  if negb (truthy resource) then mret created
  else
    kind ← get resource "kind" YNull;
    metadata ← get resource "metadata" (YMap []);
    name ← get metadata "name" YNull;
    try_except
      (if is_str "Pod" kind then
         pod ← api_create Pod (namespace self) resource;
         let created := <["pod" := pod]> created in
         print ("✓ Created Pod: " +:+ format_value name);;
         mret created
       else if is_str "Service" kind then
         service ← api_create Service (namespace self) resource;
         let created := <["service" := service]> created in
         print ("✓ Created Service: " +:+ format_value name);;
         mret created
       else if is_str "Secret" kind then
         secret ← api_create Secret (namespace self) resource;
         let created := <["secret" := secret]> created in
         print ("✓ Created Secret: " +:+ format_value name);;
         mret created
       else mret created)
      (λ e,
         print ("✗ Failed to create " +:+ format_value kind +:+ " "
                +:+ format_value name +:+ ": " +:+ reason e);;
         (* Cleanup on failure *)
         delete_session self session_id;;
         raise (ApiError e)).

Fixpoint create_resources (self : DozlabSessionManager) (session_id : string)
    (resources : list Yaml) (created : gmap string Ack) : Py (gmap string Ack) :=
  match resources with
  | [] => mret created
  | resource :: rest =>
      created ← create_resource self session_id resource created;
      create_resources self session_id rest created
  end.

(** [create_session] from the substitution on, for a resolved password. *)
Definition provision (self : DozlabSessionManager)
    (session_id user_id rootfs_url vscode_password : string) (kwargs : Kwargs)
    : Py (gmap string Ack) :=
  let variables := variables session_id user_id rootfs_url vscode_password kwargs in
  (* Replace variables in template *)
  let manifest := Template.safe_substitute (template self) variables in
  (* Parse YAML documents *)
  resources ← load_all manifest;
  (* Create resources *)
  created ← create_resources self session_id resources ∅;
  (* Print access information *)
  print (String "010" "" +:+ times "=" 70);;
  print ("🚀 Lab Session Created: " +:+ session_id);;
  print (times "=" 70);;
  print ("User ID: " +:+ user_id);;
  print ("Rootfs: " +:+ rootfs_url);;
  print ("VS Code Password: " +:+ vscode_password);;
  print (String "010" "" +:+ "Access via port-forward:");;
  print ("  kubectl port-forward lab-session-" +:+ session_id +:+ " 8080:8080 8081:8081");;
  print (String "010" "" +:+ "Then open:");;
  print "  VS Code:  http://localhost:8080";;
  print "  Terminal: http://localhost:8081";;
  print (times "=" 70);;
  mret created.

Definition create_session (self : DozlabSessionManager)
    (session_id user_id rootfs_url : string) (kwargs : Kwargs) : Py (gmap string Ack) :=
  (* Generate secure password if not provided *)
  vscode_password ← resolve_password kwargs;
  provision self session_id user_id rootfs_url vscode_password kwargs.

Definition container_info (container : V1ContainerStatus ContainerState) : ContainerInfo :=
  {| ci_name := cs_name container;
     ci_ready := cs_ready container;
     ci_restart_count := cs_restart_count container;
     ci_state := str_state (cs_state container) |}.

Definition get_session_status (self : DozlabSessionManager) (session_id : string)
    : Py (option SessionStatus) :=
  let pod_name := pod_name session_id in
  try_except
    (pod ← api_read_pod pod_name (namespace self);
     ls ← pod_labels pod;
     let containers := [] in
     (* Get container statuses *)
     let containers :=
       match container_statuses pod with
       | Some (c :: cs) => containers ++ (container_info <$> (c :: cs))
       | Some [] | None => containers
       end in
     mret (Some {| st_session_id := session_id;
                   st_user_id := ls !! "user-id";
                   st_phase := pod_phase pod;
                   st_created := creation_timestamp pod;
                   st_containers := containers |}))
    (λ e,
       (if (status e =? 404)%Z
        then print ("Session " +:+ session_id +:+ " not found")
        else print ("Error getting session status: " +:+ reason e));;
       mret None).

End Methods.

(** ** An in-memory cluster

    An implementation of the interface to run the methods on: objects are
    kept by kind, namespace and name; a create call answers 409 when the
    name is taken and 422 when the manifest has no name, a delete or read
    call answers 404 when the object is absent, and every call on a kind
    listed in [forbidden] answers 403.  The parser is a table of known
    YAML texts, each with the documents [yaml.safe_load_all] reads from
    it. *)
Module Sim.

Record store : Type := {
  objects : gmap (string * string * string) Yaml;
  forbidden : list string;
}.

Definition refuse {A} (code : Z) (why : string) (cl : store)
    : (ApiException + A) * store :=
  (inl {| status := code; reason := why; body := "" |}, cl).

Definition manifest_name (manifest : Yaml) : option string :=
  match manifest with
  | YMap entries =>
      match dict_lookup "metadata" entries with
      | Some (YMap meta) =>
          match dict_lookup "name" meta with
          | Some (YStr name) => Some name
          | _ => None
          end
      | _ => None
      end
  | _ => None
  end.

Definition is_forbidden (kind : Kind) (cl : store) : bool :=
  bool_decide (created_key kind ∈ forbidden cl).

Definition create (kind : Kind) (ns : string) (manifest : Yaml) (cl : store)
    : (ApiException + Yaml) * store :=
  if is_forbidden kind cl then refuse 403 "Forbidden" cl
  else match manifest_name manifest with
       | None => refuse 422 "Unprocessable Entity" cl
       | Some name =>
           match objects cl !! (created_key kind, ns, name) with
           | Some _ => refuse 409 "Conflict" cl
           | None =>
               (inr manifest,
                {| objects := <[(created_key kind, ns, name) := manifest]> (objects cl);
                   forbidden := forbidden cl |})
           end
       end.

Definition delete (kind : Kind) (name ns : string) (cl : store)
    : (ApiException + ()) * store :=
  if is_forbidden kind cl then refuse 403 "Forbidden" cl
  else match objects cl !! (created_key kind, ns, name) with
       | None => refuse 404 "Not Found" cl
       | Some _ =>
           (inr (),
            {| objects := base.delete (created_key kind, ns, name) (objects cl);
               forbidden := forbidden cl |})
       end.

Fixpoint label_map (entries : list (Yaml * Yaml)) : gmap string string :=
  match entries with
  | (YStr k, YStr v) :: rest => <[k := v]> (label_map rest)
  | _ :: rest => label_map rest
  | [] => ∅
  end.

Definition manifest_labels (manifest : Yaml) : option (gmap string string) :=
  match manifest with
  | YMap entries =>
      match dict_lookup "metadata" entries with
      | Some (YMap meta) =>
          match dict_lookup "labels" meta with
          | Some (YMap ls) => Some (label_map ls)
          | _ => None
          end
      | _ => None
      end
  | _ => None
  end.

(** A pod that was accepted and is not scheduled yet. *)
Definition read_pod (name ns : string) (cl : store)
    : (ApiException + V1Pod string) * store :=
  if is_forbidden Pod cl then refuse 403 "Forbidden" cl
  else match objects cl !! (created_key Pod, ns, name) with
       | None => refuse 404 "Not Found" cl
       | Some manifest =>
           (inr {| labels := manifest_labels manifest; creation_timestamp := "";
                   pod_phase := "Pending"; container_statuses := None |}, cl)
       end.

Fixpoint parse_table (table : list (string * list Yaml)) (text : string)
    : YAMLError + list Yaml :=
  match table with
  | [] => inl {| problem := "could not parse the document stream" |}
  | (known, documents) :: rest =>
      if String.eqb known text then inr documents else parse_table rest text
  end.

Definition show (v : Yaml) : string :=
  match v with
  | YNull => "None"
  | YBool true => "True"
  | YBool false => "False"
  | YInt n => pretty n
  | YStr s => s
  | _ => "..."
  end.

Definition platform (table : list (string * list Yaml)) : Platform :=
  {| Cluster := store;
     Ack := Yaml;
     ContainerState := string;
     str_state := λ s, s;
     Entropy := nat;
     create_namespaced := create;
     delete_namespaced := delete;
     read_namespaced_pod := read_pod;
     safe_load_all := parse_table table;
     token_urlsafe := λ n seed, ("token-" +:+ pretty seed, S seed);
     format_value := show |}.

Definition empty_cluster : store := {| objects := ∅; forbidden := [] |}.

Definition boot (table : list (string * list Yaml)) (cl : store)
    : @World (platform table) :=
  {| cluster := cl : @Cluster (platform table);
     entropy := 0%nat : @Entropy (platform table);
     stdout := []; calls := [] |}.

(** A manifest with a kind and a name, as a parsed document. *)
Definition manifest (kind name : string) : Yaml :=
  YMap [(YStr "kind", YStr kind);
        (YStr "metadata", YMap [(YStr "name", YStr name)])].

(** The lines of a text, joined by newlines. *)
Fixpoint lines (ls : list string) : string :=
  match ls with
  | [] => ""
  | [l] => l
  | l :: rest => l +:+ String "010" (lines rest)
  end.

(** A template of three documents and what the parser makes of its
    rendering for the session [demo-1]. *)
Definition demo_template : string :=
  lines ["kind: Pod";
         "metadata:";
         "  name: lab-session-${SESSION_ID}";
         "---";
         "kind: Service";
         "metadata:";
         "  name: lab-service-${SESSION_ID}";
         "---";
         "kind: Secret";
         "metadata:";
         "  name: lab-session-${SESSION_ID}-secrets"].

Definition demo_documents : list Yaml :=
  [manifest "Pod" "lab-session-demo-1";
   manifest "Service" "lab-service-demo-1";
   manifest "Secret" "lab-session-demo-1-secrets"].

Definition demo_table : list (string * list Yaml) :=
  [(lines ["kind: Pod";
           "metadata:";
           "  name: lab-session-demo-1";
           "---";
           "kind: Service";
           "metadata:";
           "  name: lab-service-demo-1";
           "---";
           "kind: Secret";
           "metadata:";
           "  name: lab-session-demo-1-secrets"], demo_documents)].

Definition demo_manager : DozlabSessionManager :=
  {| namespace := "default"; template := demo_template |}.

End Sim.

(** ** What the methods leave behind

    The vocabulary in which the properties speak of a run: the answers of
    the API server, the lines printed and the requests logged. *)
Section Observations.
Context `{P : Platform}.

(** The answer 404 of the API server. *)
Definition not_found {A} (answer : ApiException + A) : bool :=
  match answer with
  | inl e => (status e =? 404)%Z
  | inr _ => false
  end.

Definition succeeded {A} (answer : ApiException + A) : bool :=
  match answer with
  | inl _ => false
  | inr _ => true
  end.

(** The lines [delete_session] prints for the three answers it got. *)
Definition warning {A} (what : string) (answer : ApiException + A) : list string :=
  match answer with
  | inl e =>
      if negb (status e =? 404)%Z
      then ["Warning: Failed to delete " +:+ what +:+ ": " +:+ reason e]
      else []
  | inr _ => []
  end.

Definition item {A} (label name : string) (answer : ApiException + A) : list string :=
  match answer with
  | inl _ => []
  | inr _ => [label +:+ ": " +:+ name]
  end.

Definition deletion_report {A} (session_id : string) (pod service secret : ApiException + A)
    : list string :=
  warning "pod" pod ++ warning "service" service ++ warning "secret" secret ++
  match item "Pod" (pod_name session_id) pod
        ++ item "Service" (service_name session_id) service
        ++ item "Secret" (secret_name session_id) secret with
  | [] => ["✗ Session " +:+ session_id +:+ " not found"]
  | deleted => ("✓ Deleted session " +:+ session_id +:+ ":")
               :: ((λ entry, "  - " +:+ entry) <$> deleted)
  end.

(** A create request the API server accepted. *)
Definition accepted (c : Call) : bool :=
  match c with
  | CreateCall _ _ _ (inr _) => true
  | _ => false
  end.

(** A create request the API server answered with an [ApiException]. *)
Definition rejected (c : Call) : bool :=
  match c with
  | CreateCall _ _ _ (inl _) => true
  | _ => false
  end.

(** [created[key] = acknowledgment], for an accepted create request. *)
Definition record (created : gmap string Ack) (c : Call) : gmap string Ack :=
  match c with
  | CreateCall kind _ _ (inr ack) => <[created_key kind := ack]> created
  | _ => created
  end.

(** The three delete requests of the cleanup. *)
Definition rollback (self : DozlabSessionManager) (session_id : string)
    (pod service secret : ApiException + ()) : list Call :=
  [DeleteCall Pod (pod_name session_id) (namespace self) pod;
   DeleteCall Service (service_name session_id) (namespace self) service;
   DeleteCall Secret (secret_name session_id) (namespace self) secret].

(** What a run of the creation loop leaves in the log, by outcome. *)
Definition creation_log (self : DozlabSessionManager) (session_id : string)
    (created : gmap string Ack) (out : Outcome (gmap string Ack)) (log : list Call) : Prop :=
  match out with
  | Return created' => forallb accepted log = true ∧ created' = foldl record created log
  | Raise (ApiError e) =>
      ∃ submitted kind manifest pod service secret,
        log = submitted
              ++ CreateCall kind (namespace self) manifest (inl e)
                 :: rollback self session_id pod service secret
        ∧ forallb accepted submitted = true
  | Raise _ => forallb accepted log = true
  end.

(** The access information [create_session] prints on success. *)
Definition access_information (session_id user_id rootfs_url vscode_password : string)
    : list string :=
  [String "010" "" +:+ times "=" 70;
   "🚀 Lab Session Created: " +:+ session_id;
   times "=" 70;
   "User ID: " +:+ user_id;
   "Rootfs: " +:+ rootfs_url;
   "VS Code Password: " +:+ vscode_password;
   String "010" "" +:+ "Access via port-forward:";
   "  kubectl port-forward lab-session-" +:+ session_id +:+ " 8080:8080 8081:8081";
   String "010" "" +:+ "Then open:";
   "  VS Code:  http://localhost:8080";
   "  Terminal: http://localhost:8081";
   times "=" 70].

(** A request that leaves nothing of its target behind: anything but a
    delete request that failed for a reason other than 404. *)
Definition cleared (c : Call) : bool :=
  match c with
  | DeleteCall _ _ _ (inl e) => (status e =? 404)%Z
  | _ => true
  end.

(** The log read against the API server: each logged answer is what the
    client function answered in the cluster the earlier requests had left,
    and [final] is the cluster after the last request. *)
Fixpoint served (cl : Cluster) (log : list Call) (final : Cluster) : Prop :=
  match log with
  | [] => final = cl
  | CreateCall kind ns manifest answer :: rest =>
      ∃ cl', create_namespaced kind ns manifest cl = (answer, cl') ∧ served cl' rest final
  | DeleteCall kind name ns answer :: rest =>
      ∃ cl', delete_namespaced kind name ns cl = (answer, cl') ∧ served cl' rest final
  | ReadPodCall name ns answer :: rest =>
      ∃ cl', read_namespaced_pod name ns cl = (answer, cl') ∧ served cl' rest final
  end.

(** A computation that changes the cluster through logged requests only:
    what it adds to the log is what the server was asked and answered, and
    leads from the cluster it started in to the cluster it ends in. *)
Definition traced {A} (m : Py A) : Prop :=
  ∀ w, ∃ log, calls (m w).2 = calls w ++ log
              ∧ served (cluster w) log (cluster (m w).2).

End Observations.

(** What the idempotence of [delete_session] asks of the API server: an
    object that a delete request removed, or reported missing, is absent;
    delete requests do not bring absent objects back; and a delete request
    for an absent object is answered 404. *)
Class DeleteLaws (P : Platform) : Type := {
  absent : Kind → string → string → Cluster → Prop;
  absent_after_delete kind name ns cl cl' :
    delete_namespaced kind name ns cl = (inr (), cl') → absent kind name ns cl';
  absent_after_404 kind name ns cl cl' e :
    delete_namespaced kind name ns cl = (inl e, cl') → status e = 404%Z →
    absent kind name ns cl';
  absent_preserved kind name ns kind' name' ns' cl cl' answer :
    absent kind name ns cl →
    delete_namespaced kind' name' ns' cl = (answer, cl') →
    absent kind name ns cl';
  absent_gives_404 kind name ns cl :
    absent kind name ns cl →
    ∃ e cl', delete_namespaced kind name ns cl = (inl e, cl') ∧ status e = 404%Z;
}.

(** ** Clusters and managers to run the methods on *)

(** The in-memory cluster in which the service name of session [demo-1]
    is taken. *)
Definition service_taken : Sim.store :=
  {| Sim.objects :=
       {[ ("service", "default", "lab-service-demo-1")
          := Sim.manifest "Service" "lab-service-demo-1" ]};
     Sim.forbidden := [] |}.

(** The in-memory cluster holding the three resources of session [demo-1]. *)
Definition demo_cluster : Sim.store :=
  {| Sim.objects :=
       <[("pod", "default", "lab-session-demo-1") := Sim.manifest "Pod" "lab-session-demo-1"]> (
       <[("service", "default", "lab-service-demo-1")
           := Sim.manifest "Service" "lab-service-demo-1"]> (
       <[("secret", "default", "lab-session-demo-1-secrets")
           := Sim.manifest "Secret" "lab-session-demo-1-secrets"]> ∅));
     Sim.forbidden := [] |}.

(** A manager whose template renders to a text the parser rejects. *)
Definition broken_manager : DozlabSessionManager :=
  {| namespace := "default"; template := "kind: [Pod, ${SESSION_ID}" |}.

(** A manager whose template holds one document, of kind [ConfigMap] and
    with an empty [metadata] entry, and what the parser makes of it. *)
Definition config_map_manager : DozlabSessionManager :=
  {| namespace := "default";
     template := "kind: ConfigMap" +:+ String "010" "metadata:" |}.

Definition config_map_table : list (string * list Yaml) :=
  [("kind: ConfigMap" +:+ String "010" "metadata:",
    [YMap [(YStr "kind", YStr "ConfigMap"); (YStr "metadata", YNull)]])].

(** Absence in the in-memory cluster: requests on the kind are allowed and
    no object is kept under the name. *)
Definition sim_absent (kind : Kind) (name ns : string) (cl : Sim.store) : Prop :=
  Sim.is_forbidden kind cl = false
  ∧ Sim.objects cl !! (created_key kind, ns, name) = None.

(** ** [list_sessions]

    The list request of [CoreV1Api], which the other methods do not use, and
    the method built on it.  The log of calls keeps the requests on single
    resources; a list request only goes through the cluster. *)
Class Listing (P : Platform) : Type := {
  (** [list_namespaced_pod(namespace, label_selector)], answering with
      [pods.items] *)
  list_namespaced_pod :
    string → string → Cluster → (ApiException + list (V1Pod ContainerState)) * Cluster;
}.

(** [f"{s:<width}"] for a string: spaces are added on the right up to the
    width, and a longer string is left as it is. *)
Definition ljust (s : string) (width : nat) : string :=
  s +:+ times " " (width - String.length s).

Section Inspector.
Context `{P : Platform} `{!Listing P}.

Definition api_list_pods (namespace label_selector : string)
    : Py (list (V1Pod ContainerState)) :=
  λ w, let '(r, cl) := list_namespaced_pod namespace label_selector (cluster w) in
       (answer_of r, {| cluster := cl; entropy := entropy w;
                        stdout := stdout w; calls := calls w |}).

(** The line [list_sessions] prints for a pod with the labels [ls]. *)
Definition session_row (ls : gmap string string) (pod : V1Pod ContainerState) : string :=
  let session_id := default "N/A" (ls !! "session-id") in
  let user_id := default "N/A" (ls !! "user-id") in
  let status := pod_phase pod in
  let age := creation_timestamp pod in
  ljust session_id 20 +:+ " " +:+ ljust user_id 15 +:+ " " +:+ ljust status 15
  +:+ " " +:+ age.

(** The pods of a listing that carry labels, and the rows printed before
    the loop meets one without ([pod.metadata.labels] is [None] there). *)
Definition all_labelled (pods : list (V1Pod ContainerState)) : bool :=
  forallb (λ pod, match labels pod with Some _ => true | None => false end) pods.

Fixpoint labelled_rows (pods : list (V1Pod ContainerState)) : list string :=
  match pods with
  | [] => []
  | pod :: rest =>
      match labels pod with
      | Some ls => session_row ls pod :: labelled_rows rest
      | None => []
      end
  end.

(** The [for pod in pods.items] loop. *)
Fixpoint print_rows (pods : list (V1Pod ContainerState)) : Py () :=
  match pods with
  | [] => mret ()
  | pod :: rest =>
      ls ← pod_labels pod;
      print (session_row ls pod);;
      print_rows rest
  end.

Definition list_sessions (self : DozlabSessionManager) : Py (list (V1Pod ContainerState)) :=
  try_except
    (pods ← api_list_pods (namespace self) "app=lab-environment";
     match pods with
     | [] =>
         print "No active sessions found";;
         mret []
     | _ :: _ =>
         print (String "010" "" +:+ "Active Sessions (" +:+ pretty (length pods) +:+ "):");;
         print (times "-" 80);;
         print (ljust "SESSION ID" 20 +:+ " " +:+ ljust "USER ID" 15 +:+ " "
                +:+ ljust "STATUS" 15 +:+ " " +:+ "AGE");;
         print (times "-" 80);;
         print_rows pods;;
         mret pods
     end)
    (λ e,
       print ("Error listing sessions: " +:+ reason e);;
       mret []).

End Inspector.

(** The in-memory cluster lists the pods of a namespace that carry the
    label the selector names ([key=value]). *)
Definition sim_selected (selector : string) (manifest : Yaml) : bool :=
  existsb (λ kv : string * string, String.eqb (kv.1 +:+ "=" +:+ kv.2) selector)
    (map_to_list (default ∅ (Sim.manifest_labels manifest))).

Definition sim_pod (manifest : Yaml) : V1Pod string :=
  {| labels := Sim.manifest_labels manifest; creation_timestamp := "";
     pod_phase := "Pending"; container_statuses := None |}.

Definition sim_list (ns selector : string) (cl : Sim.store)
    : (ApiException + list (V1Pod string)) * Sim.store :=
  if Sim.is_forbidden Pod cl then Sim.refuse 403 "Forbidden" cl
  else (inr (sim_pod <$>
               (filter (λ entry : (string * string * string) * Yaml,
                          entry.1 = ("pod", ns, entry.1.2) ∧ sim_selected selector entry.2)
                       (map_to_list (Sim.objects cl))).*2), cl).

#[export] Instance sim_listing (table : list (string * list Yaml))
    : Listing (Sim.platform table) := @Build_Listing (Sim.platform table) sim_list.

(** A pod manifest with the labels of a session. *)
Definition session_pod (session_id user_id : string) : Yaml :=
  YMap [(YStr "kind", YStr "Pod");
        (YStr "metadata",
         YMap [(YStr "name", YStr (pod_name session_id));
               (YStr "labels",
                YMap [(YStr "app", YStr "lab-environment");
                      (YStr "session-id", YStr session_id);
                      (YStr "user-id", YStr user_id)])])].

(** ** More vocabulary for the creation loop *)

(** The [kind] a document must carry for a request of a kind. *)
Definition kind_name (kind : Kind) : string :=
  match kind with
  | Pod => "Pod"
  | Service => "Service"
  | Secret => "Secret"
  end.

(** [resource.get('kind')] of a mapping. *)
Definition document_kind (resource : Yaml) : Yaml :=
  match resource with
  | YMap entries => default YNull (dict_lookup "kind" entries)
  | _ => YNull
  end.

(** A document sent and acknowledged: the kind of the request, the
    document and the acknowledgment. *)
Definition submission `{P : Platform} : Type := Kind * Yaml * Ack.

Definition accepted_call `{P : Platform} (self : DozlabSessionManager) (s : submission)
    : Call :=
  CreateCall s.1.1 (namespace self) s.1.2 (inr s.2).

(** The document was sent under its own kind. *)
Definition well_kinded `{P : Platform} (s : submission) : bool :=
  is_str (kind_name s.1.1) (document_kind s.1.2).

(** The keyword arguments of the call of [create_session] in [main]:
    [vm_cpu=args.vm_cpu, vm_memory=args.vm_memory] and nothing else. *)
Definition main_kwargs (vm_cpu vm_memory : Z) : Kwargs :=
  {| vscode_password := None; disk_size := None; vm_cpu := Some vm_cpu;
     vm_memory := Some vm_memory; terminal_image := None; vm_memory_limit := None;
     vm_cpu_limit := None; vm_memory_request := None; vm_cpu_request := None;
     kernel_size_limit := None; vm_data_size_limit := None;
     vscode_data_size_limit := None |}.

(** The names of the variables [create_session] defines. *)
Definition variable_names : gset string :=
  {[ "SESSION_ID"; "USER_ID"; "ROOTFS_IMAGE_URL"; "VSCODE_PASSWORD"; "DISK_SIZE";
     "VM_CPU"; "VM_MEMORY"; "TERMINAL_IMAGE"; "VM_MEMORY_LIMIT"; "VM_CPU_LIMIT";
     "VM_MEMORY_REQUEST"; "VM_CPU_REQUEST"; "KERNEL_SIZE_LIMIT"; "VM_DATA_SIZE_LIMIT";
     "VSCODE_DATA_SIZE_LIMIT" ]}.

(** A manager whose template holds a pod and then a document that is a
    plain string, and what the parser makes of its rendering. *)
Definition malformed_manager : DozlabSessionManager :=
  {| namespace := "default";
     template := Sim.lines ["kind: Pod";
                            "metadata:";
                            "  name: lab-session-${SESSION_ID}";
                            "--- notes"] |}.

Definition malformed_table : list (string * list Yaml) :=
  [(Sim.lines ["kind: Pod";
               "metadata:";
               "  name: lab-session-demo-1";
               "--- notes"],
    [Sim.manifest "Pod" "lab-session-demo-1"; YStr "notes"])].

#[export] Instance kind_eq_dec : EqDecision Kind.
Proof. solve_decision. Defined.

(** An accepted create request of a given kind. *)
Definition accepted_as `{P : Platform} (kind : Kind) (c : Call) : bool :=
  match c with
  | CreateCall k _ _ (inr _) => bool_decide (k = kind)
  | _ => false
  end.

(** The names the two mappings must agree on: those of the placeholders of
    the template. *)
Definition agree_on_placeholders (template : string) (m1 m2 : gmap string string) : bool :=
  forallb (λ p, match Template.placeholder p with
                | Some name => bool_decide (m1 !! name = m2 !! name)
                | None => true
                end) (Template.pieces template).

(** What a run of the loop did: the documents sent and accepted, in
    order; then, by outcome, nothing more, or the document that was
    rejected followed by the cleanup. *)
Definition loop_trace `{P : Platform} (self : DozlabSessionManager) (session_id : string)
    (resources : list Yaml) (created : gmap string Ack) (w : World)
    (r : Outcome (gmap string Ack) * World) (done : list submission) : Prop :=
  match r.1 with
  | Return created' =>
      done.*1.*2 `sublist_of` resources
      ∧ calls r.2 = calls w ++ (accepted_call self <$> done)
      ∧ created' = foldl record created (accepted_call self <$> done)
  | Raise (ApiError e) =>
      ∃ kind manifest w0,
        (done.*1.*2 ++ [manifest]) `sublist_of` resources
        ∧ is_str (kind_name kind) (document_kind manifest) = true
        ∧ calls w0 = calls w ++ (accepted_call self <$> done)
                     ++ [CreateCall kind (namespace self) manifest (inl e)]
        ∧ r.2 = (delete_session self session_id w0).2
  | Raise _ =>
      done.*1.*2 `sublist_of` resources
      ∧ calls r.2 = calls w ++ (accepted_call self <$> done)
  end.

(** * Properties *)

(** ** Text *)

#[local] Arguments String.append !_ _ / : simpl nomatch.

Lemma append_nil_r (s : string) : s +:+ "" = s.
Proof. induction s as [|c s IH]; simpl; [reflexivity | congruence]. Qed.

Lemma append_assoc (s t u : string) : (s +:+ t) +:+ u = s +:+ (t +:+ u).
Proof. induction s as [|c s IH]; simpl; [reflexivity | congruence]. Qed.

Lemma length_append (s t : string) :
  String.length (s +:+ t) = (String.length s + String.length t)%nat.
Proof. induction s as [|c s IH]; simpl; [reflexivity | congruence]. Qed.

Lemma append_inj_l (s t1 t2 : string) : s +:+ t1 = s +:+ t2 → t1 = t2.
Proof.
  induction s as [|c s IH]; simpl; intros Heq; [exact Heq |].
  injection Heq as Heq. by apply IH.
Qed.

Lemma append_inj_r (s1 s2 t : string) : s1 +:+ t = s2 +:+ t → s1 = s2.
Proof.
  revert s2. induction s1 as [|c s1 IH]; intros [|c' s2] Heq; simpl in Heq.
  - reflexivity.
  - apply (f_equal String.length) in Heq. simpl in Heq.
    rewrite length_append in Heq. lia.
  - apply (f_equal String.length) in Heq. simpl in Heq.
    rewrite length_append in Heq. lia.
  - injection Heq as -> Heq. f_equal. by apply IH.
Qed.

(** ** The substitution engine *)
Example safe_substitute_sample :
  Template.safe_substitute "name: lab-session-${SESSION_ID} $USER_ID $$ ${MISSING} ${9} $"
    (<["SESSION_ID" := "demo-1"]> (<["USER_ID" := "alice"]> ∅))
  = "name: lab-session-demo-1 alice $ ${MISSING} ${9} $".
Proof. vm_compute. reflexivity. Qed.

Module TemplateFacts.
Import Template.

Lemma drop_0 (s : string) : drop 0 s = s.
Proof. by destruct s. Qed.

Lemma drop_drop (n m : nat) (s : string) : drop n (drop m s) = drop (m + n) s.
Proof.
  revert s. induction m as [|m IH]; intros s; simpl; [reflexivity |].
  destruct s as [|c s]; simpl; [by destruct n | apply IH].
Qed.

Lemma drop_append (s t : string) : drop (String.length s) (s +:+ t) = t.
Proof. induction s as [|c s IH]; simpl; [reflexivity | exact IH]. Qed.

Lemma idrun_drop (s : string) : idrun s +:+ drop (String.length (idrun s)) s = s.
Proof.
  induction s as [|c s IH]; simpl; [reflexivity |].
  destruct (is_idchar c); simpl; [by rewrite IH | reflexivity].
Qed.

(** The text of a match is the text found at its delimiter. *)
Lemma group_match_at (rest : string) :
  group (match_at rest) +:+ drop (span (match_at rest)) rest = String "$" rest.
Proof.
  destruct rest as [|c after]; [reflexivity |].
  unfold match_at.
  destruct (Ascii.eqb_spec c "$") as [-> | _]; [reflexivity |].
  destruct (is_idstart c) eqn:Hstart.
  { cbn [group span]. rewrite append_assoc. f_equal. apply idrun_drop. }
  destruct (Ascii.eqb_spec c "{") as [-> | _]; [| reflexivity].
  destruct after as [|c' tail]; [reflexivity |].
  destruct (is_idstart c'); [| reflexivity].
  destruct (drop _ _) as [|close tail'] eqn:Hdrop; [reflexivity |].
  destruct (Ascii.eqb_spec close "}") as [-> | _]; [| reflexivity].
  cbn [group span].
  replace (String.length (idrun (String c' tail)) + 2)%nat
    with (S (String.length (idrun (String c' tail)) + 1))%nat by lia.
  cbn [drop]. rewrite <- drop_drop, Hdrop. cbn [drop].
  simpl. do 2 f_equal. rewrite append_assoc. simpl.
  rewrite <- Hdrop. exact (idrun_drop (String c' tail)).
Qed.

(** The pieces cover the template: nothing is lost or reordered. *)
Lemma pieces_from_text (skip : nat) (text : string) :
  join (piece_text <$> pieces_from skip text) = drop skip text.
Proof.
  revert skip. induction text as [|c rest IH]; intros skip.
  - by destruct skip.
  - destruct skip as [|k]; cbn [pieces_from drop]; [| apply IH].
    destruct (Ascii.eqb_spec c "$") as [-> | _]; cbn [fmap list_fmap join piece_text].
    + rewrite IH. apply group_match_at.
    + change (list_fmap _ _ piece_text (pieces_from 0 rest))
        with (piece_text <$> pieces_from 0 rest).
      by rewrite IH, drop_0.
Qed.

Lemma pattern_sub_pieces (repl : match_object → string) (skip : nat) (text : string) :
  pattern_sub repl skip text = join (render repl <$> pieces_from skip text).
Proof.
  revert skip. induction text as [|c rest IH]; intros skip; [reflexivity |].
  destruct skip as [|k]; cbn [pattern_sub pieces_from]; [| apply IH].
  destruct (Ascii.eqb c "$"); cbn [fmap list_fmap join render]; by rewrite IH.
Qed.

Lemma render_convert (mapping : gmap string string) (p : piece) :
  match placeholder p with
  | Some name =>
      match mapping !! name with
      | Some value => render (convert mapping) p = value
      | None => render (convert mapping) p = piece_text p
      end
  | None =>
      render (convert mapping) p
      = match p with Match Escaped => "$" | _ => piece_text p end
  end.
Proof.
  destruct p as [c | [ | name | name | ]]; simpl; try reflexivity;
    by destruct (mapping !! name).
Qed.

Lemma pattern_sub_skip (repl : match_object → string) (skip : nat) (text : string) :
  pattern_sub repl skip text = pattern_sub repl 0 (drop skip text).
Proof.
  revert skip. induction text as [|c rest IH]; intros [|k]; try reflexivity.
  cbn [pattern_sub drop]. apply IH.
Qed.

Lemma pattern_sub_delimiter (repl : match_object → string) (rest : string) :
  pattern_sub repl 0 (String "$" rest)
  = repl (match_at rest) +:+ pattern_sub repl (span (match_at rest)) rest.
Proof. reflexivity. Qed.

Lemma pattern_sub_plain (repl : match_object → string) (pre rest : string) :
  no_delimiter pre = true →
  pattern_sub repl 0 (pre +:+ rest) = pre +:+ pattern_sub repl 0 rest.
Proof.
  induction pre as [|c pre IH]; intros Hplain; [reflexivity |].
  simpl in Hplain. apply andb_prop in Hplain as [Hc Hpre].
  simpl. destruct (Ascii.eqb c "$"); [discriminate |].
  by rewrite IH.
Qed.

Lemma idrun_stops (name rest : string) :
  all_idchar name = true →
  idrun (name +:+ String "}" rest) = name.
Proof.
  induction name as [|c name IH]; intros Hid; [reflexivity |].
  simpl in Hid. apply andb_prop in Hid as [Hc Hname].
  simpl. rewrite Hc. by rewrite IH.
Qed.

Lemma match_at_braced (name post : string) :
  is_identifier name = true →
  match_at (String "{" (name +:+ String "}" post)) = Braced name.
Proof.
  destruct name as [|c name]; [discriminate |]. intros Hid.
  assert (Hall : all_idchar (String c name) = true).
  { simpl in *. apply andb_prop in Hid as [Hc Hname].
    unfold is_idchar. by rewrite Hc, Hname. }
  simpl in Hid. apply andb_prop in Hid as [Hc _].
  unfold match_at. change (Ascii.eqb "{" "$") with false.
  change (is_idstart "{") with false. change (Ascii.eqb "{" "{") with true.
  cbn iota. change (String c name +:+ String "}" post)
    with (String c (name +:+ String "}" post)).
  cbn iota. rewrite Hc.
  change (String c (name +:+ String "}" post))
    with (String c name +:+ String "}" post).
  rewrite (idrun_stops _ _ Hall), drop_append. reflexivity.
Qed.

(** A braced placeholder that follows plain text is found by the scan and
    replaced by its value, or kept when the mapping has no such key. *)
Lemma safe_substitute_braced (mapping : gmap string string) (pre name post : string) :
  no_delimiter pre = true →
  is_identifier name = true →
  safe_substitute (pre +:+ "${" +:+ name +:+ "}" +:+ post) mapping
  = pre +:+ default ("${" +:+ name +:+ "}") (mapping !! name)
        +:+ safe_substitute post mapping.
Proof.
  intros Hplain Hid. unfold safe_substitute.
  rewrite (pattern_sub_plain _ _ _ Hplain). f_equal.
  change ("${" +:+ name +:+ "}" +:+ post)
    with (String "$" (String "{" (name +:+ String "}" post))).
  rewrite pattern_sub_delimiter, (match_at_braced _ _ Hid). cbn [convert span].
  rewrite (pattern_sub_skip _ (String.length name + 2)).
  assert (drop (String.length name + 2) (String "{" (name +:+ String "}" post)) = post)
    as ->.
  { replace (String.length name + 2)%nat with (S (String.length name + 1)) by lia.
    cbn [drop]. by rewrite <- drop_drop, drop_append. }
  by destruct (mapping !! name).
Qed.

Lemma pieces_from_skip (skip : nat) (text : string) :
  pieces_from skip text = pieces_from 0 (drop skip text).
Proof.
  revert skip. induction text as [|c rest IH]; intros [|k]; try reflexivity.
  cbn [pieces_from drop]. apply IH.
Qed.

Lemma length_drop (n : nat) (s : string) : (String.length (drop n s) ≤ String.length s)%nat.
Proof.
  revert s. induction n as [|n IH]; intros [|c s]; simpl; try lia.
  specialize (IH s). lia.
Qed.

Lemma is_idstart_idchar (c : ascii) : is_idstart c = true → is_idchar c = true.
Proof. unfold is_idchar. by intros ->. Qed.

Lemma is_identifier_all (name : string) :
  is_identifier name = true → all_idchar name = true.
Proof.
  destruct name as [|c name]; [discriminate |]. simpl.
  intros [Hc Hname]%andb_prop. by rewrite (is_idstart_idchar _ Hc), Hname.
Qed.

Lemma all_idchar_idrun (s : string) : all_idchar (idrun s) = true.
Proof.
  induction s as [|c s IH]; [reflexivity |]. simpl.
  destruct (is_idchar c) eqn:Hc; [| reflexivity]. simpl. by rewrite Hc, IH.
Qed.

Lemma idrun_ends (s : string) : ends_identifier (drop (String.length (idrun s)) s).
Proof.
  induction s as [|c s IH]; [exact I |]. simpl.
  destruct (is_idchar c) eqn:Hc; [exact IH | exact Hc].
Qed.

(** The greedy run is the identifier, when the text cannot take it further. *)
Lemma idrun_append (name s : string) :
  all_idchar name = true → ends_identifier s → idrun (name +:+ s) = name.
Proof.
  induction name as [|c name IH]; intros Hall Hends.
  - destruct s as [|c s]; [reflexivity |]. simpl in *. by rewrite Hends.
  - simpl in Hall. apply andb_prop in Hall as [Hc Hname].
    simpl. rewrite Hc. by rewrite IH.
Qed.

Lemma identifier_first (name t : string) (c : ascii) (s : string) :
  is_identifier name = true → name +:+ t = String c s → is_idstart c = true.
Proof.
  destruct name as [|c' name]; [discriminate |]. simpl.
  intros [Hc _]%andb_prop [= <- _]. exact Hc.
Qed.

(** The matcher finds what the documented forms say, and nothing else. *)
Lemma match_at_sound (rest : string) :
  match match_at rest with
  | Escaped => True
  | Named name =>
      is_identifier name = true ∧ ends_identifier (drop (String.length name) rest)
  | Braced name => is_identifier name = true
  | Invalid => lone rest
  end.
Proof.
  destruct rest as [|c after].
  { repeat split; intros; try discriminate.
    all: destruct name; [discriminate | discriminate]. }
  unfold match_at.
  destruct (Ascii.eqb_spec c "$") as [-> | Hdollar]; [exact I |].
  destruct (is_idstart c) eqn:Hstart.
  { split; [| apply idrun_ends]. simpl.
    rewrite (is_idstart_idchar _ Hstart). simpl. rewrite Hstart. apply all_idchar_idrun. }
  assert (Hname : ∀ name t, is_identifier name = true → String c after ≠ name +:+ t).
  { intros name t Hid Heq. symmetry in Heq.
    rewrite (identifier_first _ _ _ _ Hid Heq) in Hstart. discriminate. }
  destruct (Ascii.eqb_spec c "{") as [-> | Hbrace].
  2:{ repeat split; [| exact Hname |]; intros; intros [=]; congruence. }
  assert (Hbraced : ∀ name t, is_identifier name = true →
            after = name +:+ "}" +:+ t →
            ∃ c' tail, after = String c' tail ∧ is_idstart c' = true
                       ∧ drop (String.length (idrun after)) after = String "}" t).
  { intros name t Hid ->. pose proof (is_identifier_all _ Hid) as Hall.
    change ("}" +:+ t) with (String "}" t).
    rewrite (idrun_stops _ _ Hall), drop_append.
    destruct name as [|c' name']; [discriminate |].
    exists c', (name' +:+ String "}" t). split; [reflexivity |]. split; [| reflexivity].
    simpl in Hid. by apply andb_prop in Hid as [Hc _]. }
  assert (Hlone : (∀ name t, is_identifier name = true → after ≠ name +:+ "}" +:+ t) →
                  lone (String "{" after)).
  { intros Hno. repeat split; [discriminate | exact Hname |].
    intros name t Hid [= Heq]. exact (Hno name t Hid Heq). }
  destruct after as [|c' tail].
  { apply Hlone. intros name t Hid Heq.
    destruct (Hbraced name t Hid Heq) as (? & ? & [=] & _). }
  destruct (is_idstart c') eqn:Hstart'.
  2:{ apply Hlone. intros name t Hid Heq.
      destruct (Hbraced name t Hid Heq) as (? & ? & [= <- <-] & Hc & _). congruence. }
  destruct (drop _ _) as [|close tail'] eqn:Hdrop.
  { apply Hlone. intros name t Hid Heq.
    destruct (Hbraced name t Hid Heq) as (? & ? & _ & _ & Hd). congruence. }
  destruct (Ascii.eqb_spec close "}") as [-> | Hclose].
  2:{ apply Hlone. intros name t Hid Heq.
      destruct (Hbraced name t Hid Heq) as (? & ? & _ & _ & Hd). congruence. }
  simpl. rewrite (is_idstart_idchar _ Hstart'). simpl. rewrite Hstart'.
  apply all_idchar_idrun.
Qed.

(** The scan cuts the template at its placeholders, as documented. *)
Lemma pieces_scans (text : string) : Scans text (pieces text).
Proof.
  unfold pieces.
  assert (Hall : ∀ n text, (String.length text ≤ n)%nat → Scans text (pieces_from 0 text)).
  2:{ by apply (Hall (String.length text)). }
  clear text. induction n as [|n IH]; intros [|c rest] Hlen; simpl in Hlen;
    try lia; try apply scans_end.
  cbn [pieces_from].
  destruct (Ascii.eqb_spec c "$") as [-> | Hc].
  2:{ apply scans_text; [exact Hc | apply IH; lia]. }
  rewrite pieces_from_skip.
  pose proof (group_match_at rest) as Htext.
  pose proof (match_at_sound rest) as Hsound.
  pose proof (length_drop (span (match_at rest)) rest) as Hshort.
  destruct (match_at rest) as [ | name | name | ]; cbn [group span] in *;
    rewrite <- Htext.
  - apply scans_escaped, IH. lia.
  - destruct Hsound as [Hid Hends]. rewrite append_assoc.
    apply scans_named; [exact Hid | exact Hends | apply IH; lia].
  - rewrite !append_assoc. apply (scans_braced name); [exact Hsound | apply IH; lia].
  - rewrite drop_0. apply scans_lone; [exact Hsound | apply IH; lia].
Qed.

(** A text has one reading. *)
Lemma scans_unique (text : string) (ps ps' : list piece) :
  Scans text ps → Scans text ps' → ps = ps'.
Proof.
  intros Hps. revert ps'.
  induction Hps as [ | c s ps Hc _ IH | s ps _ IH | name s ps Hid Hends _ IH
                   | name s ps Hid _ IH | s ps Hlone _ IH ];
    intros ps' Hps'.
  - by inversion Hps'.
  - inversion Hps' as [ | c0 s0 ps0 Hc0 Hs0 | | | | ]; subst; try congruence.
    f_equal. by apply IH.
  - inversion Hps' as [ | c0 s0 ps0 Hc0 Hs0 | s0 ps0 Hs0 | name0 s0 ps0 Hid0 He0 Hs0 Heq
                       | name0 s0 ps0 Hid0 Hs0 Heq | s0 ps0 Hl0 Hs0 ]; subst.
    + congruence.
    + f_equal. by apply IH.
    + pose proof (identifier_first _ _ _ _ Hid0 Heq). discriminate.
    + destruct Hl0 as (Hno & _ & _). by destruct (Hno s).
  - pose proof (is_identifier_all _ Hid) as Hall.
    inversion Hps' as [ | c0 s0 ps0 Hc0 Hs0 | s0 ps0 Hs0 Heq | name0 s0 ps0 Hid0 He0 Hs0 Heq
                       | name0 s0 ps0 Hid0 Hs0 Heq | s0 ps0 Hl0 Hs0 ]; subst.
    + congruence.
    + symmetry in Heq. pose proof (identifier_first _ _ _ _ Hid Heq). discriminate.
    + pose proof (f_equal idrun Heq) as Hrun.
      rewrite !idrun_append in Hrun by (done || by apply is_identifier_all).
      subst name0. apply append_inj_l in Heq. subst s0. f_equal. by apply IH.
    + symmetry in Heq. pose proof (identifier_first _ _ _ _ Hid Heq). discriminate.
    + destruct Hl0 as (_ & Hno & _). by destruct (Hno name s Hid).
  - pose proof (is_identifier_all _ Hid) as Hall.
    inversion Hps' as [ | c0 s0 ps0 Hc0 Hs0 | s0 ps0 Hs0 Heq | name0 s0 ps0 Hid0 He0 Hs0 Heq
                       | name0 s0 ps0 Hid0 Hs0 Heq | s0 ps0 Hl0 Hs0 ]; subst.
    + congruence.
    + pose proof (identifier_first _ _ _ _ Hid0 Heq). discriminate.
    + change ("}" +:+ s0) with (String "}" s0) in Heq.
      change ("}" +:+ s) with (String "}" s) in Heq.
      pose proof (f_equal idrun Heq) as Hrun.
      rewrite !idrun_stops in Hrun by (done || by apply is_identifier_all).
      subst name0. apply append_inj_l in Heq. injection Heq as ->. f_equal. by apply IH.
    + destruct Hl0 as (_ & _ & Hno). by destruct (Hno name s Hid).
  - destruct Hlone as (Hdollar & Hnamed & Hbraced).
    inversion Hps' as [ | c0 s0 ps0 Hc0 Hs0 | s0 ps0 Hs0 Heq | name0 s0 ps0 Hid0 He0 Hs0 Heq
                       | name0 s0 ps0 Hid0 Hs0 Heq | s0 ps0 Hl0 Hs0 ]; subst.
    + congruence.
    + by destruct (Hdollar s0).
    + by destruct (Hnamed name0 s0 Hid0).
    + by destruct (Hbraced name0 s0 Hid0).
    + f_equal. by apply IH.
Qed.

End TemplateFacts.

(** ** Running the methods *)

Ltac run_py :=
  unfold mbind, py_bind, bind, mret, py_ret, ret, raise, try_except, print,
    api_delete, api_create, api_read_pod, load_all, log, answer_of; cbn beta iota.

Section Runs.
Context `{P : Platform}.

Lemma print_items_run (items : list string) (w : World) :
  print_items items w
  = (Return (), {| cluster := cluster w; entropy := entropy w;
                   stdout := stdout w ++ ((λ entry, "  - " +:+ entry) <$> items);
                   calls := calls w |}).
Proof.
  revert w. induction items as [|entry items IH]; intros w; cbn [print_items].
  - run_py. cbn [fmap list_fmap]. rewrite app_nil_r. by destruct w.
  - run_py. rewrite IH. cbn [cluster entropy stdout calls fmap list_fmap].
    by rewrite <- app_assoc.
Qed.

(** [delete_session] sends the three delete requests in order, whatever
    the answers, prints its report and returns. *)
Lemma delete_session_run (self : DozlabSessionManager) (session_id : string) (w : World) :
  delete_session self session_id w =
  let '(pod, c1) :=
    delete_namespaced Pod (pod_name session_id) (namespace self) (cluster w) in
  let '(service, c2) :=
    delete_namespaced Service (service_name session_id) (namespace self) c1 in
  let '(secret, c3) :=
    delete_namespaced Secret (secret_name session_id) (namespace self) c2 in
  (Return (),
   {| cluster := c3; entropy := entropy w;
      stdout := stdout w ++ deletion_report session_id pod service secret;
      calls := calls w ++
        [DeleteCall Pod (pod_name session_id) (namespace self) pod;
         DeleteCall Service (service_name session_id) (namespace self) service;
         DeleteCall Secret (secret_name session_id) (namespace self) secret] |}).
Proof.
  unfold delete_session, deletion_report, warning, item. run_py.
  repeat (cbn [cluster entropy stdout calls];
          match goal with
          | |- context [negb (status ?e =? 404)%Z] =>
              destruct (negb (status e =? 404)%Z)
          | |- context [delete_namespaced ?k ?n ?ns ?c] =>
              destruct (delete_namespaced k n ns c) as [[? | []] ?]
          end);
    cbn [cluster entropy stdout calls app]; rewrite ?print_items_run;
    cbn [cluster entropy stdout calls fmap list_fmap app];
    rewrite <- ?app_assoc; cbn [app]; rewrite ?app_nil_r; reflexivity.
Qed.

Lemma create_resource_run (self : DozlabSessionManager) (session_id : string)
    (resource : Yaml) (created : gmap string Ack) (w : World) :
  let r := create_resource self session_id resource created w in
  entropy r.2 = entropy w ∧
  ∃ log, calls r.2 = calls w ++ log ∧ creation_log self session_id created r.1 log.
Proof.
  unfold create_resource.
  destruct (truthy resource); cbn [negb].
  2:{ run_py. cbn. split; [done |]. exists []. by rewrite app_nil_r. }
  assert (Hdispatch : ∀ kind name : Yaml,
    let r := try_except
      (if is_str "Pod" kind then
         pod ← api_create Pod (namespace self) resource;
         let created := <["pod" := pod]> created in
         print ("✓ Created Pod: " +:+ format_value name);;
         mret created
       else if is_str "Service" kind then
         service ← api_create Service (namespace self) resource;
         let created := <["service" := service]> created in
         print ("✓ Created Service: " +:+ format_value name);;
         mret created
       else if is_str "Secret" kind then
         secret ← api_create Secret (namespace self) resource;
         let created := <["secret" := secret]> created in
         print ("✓ Created Secret: " +:+ format_value name);;
         mret created
       else mret created)
      (λ e,
         print ("✗ Failed to create " +:+ format_value kind +:+ " "
                +:+ format_value name +:+ ": " +:+ reason e);;
         delete_session self session_id;;
         raise (ApiError e)) w in
    entropy r.2 = entropy w ∧
    ∃ log, calls r.2 = calls w ++ log ∧ creation_log self session_id created r.1 log).
  { intros kind name.
    destruct (is_str "Pod" kind); [|destruct (is_str "Service" kind);
      [|destruct (is_str "Secret" kind)]].
    4:{ run_py. cbn. split; [done |]. exists []. by rewrite app_nil_r. }
    all: run_py; cbn [cluster entropy stdout calls];
      destruct (create_namespaced _ _ _ _) as [[e | ack] c0];
      cbn [cluster entropy stdout calls fst snd].
    all: try (split; [done |]; eexists [_]; split; [done |]; by cbn).
    all: rewrite delete_session_run; cbn [cluster entropy stdout calls];
      destruct (delete_namespaced Pod _ _ _) as [pod c1];
      destruct (delete_namespaced Service _ _ _) as [service c2];
      destruct (delete_namespaced Secret _ _ _) as [secret c3];
      cbn [cluster entropy stdout calls fst snd];
      (split; [done |]); eexists (_ :: rollback self session_id pod service secret);
      (split; [by rewrite <- app_assoc |]);
      eexists [], _, _, _, _, _; split; [reflexivity | done]. }
  unfold get.
  destruct resource as [ | | | | | entries | ];
    try (run_py; cbn; split; [done |]; exists []; by rewrite app_nil_r).
  destruct (dict_lookup "kind" entries) as [kind |];
    (destruct (dict_lookup "metadata" entries) as [[ | | | | | meta | ] |];
     try (run_py; cbn; split; [done |]; exists []; by rewrite app_nil_r)).
  - destruct (dict_lookup "name" meta) as [name |] eqn:Hname;
      [assert (Hgoal := Hdispatch kind name) | assert (Hgoal := Hdispatch kind YNull)];
      revert Hgoal; run_py; rewrite Hname; exact id.
  - exact (Hdispatch kind YNull).
  - destruct (dict_lookup "name" meta) as [name |] eqn:Hname;
      [assert (Hgoal := Hdispatch YNull name) | assert (Hgoal := Hdispatch YNull YNull)];
      revert Hgoal; run_py; rewrite Hname; exact id.
Qed.

Lemma create_resources_run (self : DozlabSessionManager) (session_id : string)
    (resources : list Yaml) (created : gmap string Ack) (w : World) :
  let r := create_resources self session_id resources created w in
  entropy r.2 = entropy w ∧
  ∃ log, calls r.2 = calls w ++ log ∧ creation_log self session_id created r.1 log.
Proof.
  revert created w. induction resources as [|resource rest IH]; intros created w.
  { cbn. split; [done |]. exists []. by rewrite app_nil_r. }
  cbn [create_resources]. unfold mbind, py_bind, bind.
  destruct (create_resource_run self session_id resource created w)
    as (Hentropy & log1 & Hcalls & Hlog).
  destruct (create_resource self session_id resource created w) as [[created1 | e] w1];
    cbn [fst snd] in *.
  2:{ split; [done |]. by exists log1. }
  destruct Hlog as [Haccepted ->].
  destruct (IH (foldl record created log1) w1) as (Hentropy2 & log2 & Hcalls2 & Hlog2).
  split; [congruence |]. exists (log1 ++ log2).
  split; [by rewrite Hcalls2, Hcalls, app_assoc |].
  destruct (create_resources self session_id rest (foldl record created log1) w1)
    as [[created2 | e] w2]; cbn [fst snd creation_log] in *.
  - destruct Hlog2 as [Haccepted2 ->].
    by rewrite forallb_app, Haccepted, Haccepted2, foldl_app.
  - destruct e as [e | e | obj attr].
    + destruct Hlog2 as (submitted & kind & manifest & pod & service & secret & -> & Hsub).
      exists (log1 ++ submitted), kind, manifest, pod, service, secret.
      by rewrite forallb_app, Haccepted, Hsub, app_assoc.
    + by rewrite forallb_app, Haccepted, Hlog2.
    + by rewrite forallb_app, Haccepted, Hlog2.
Qed.

Lemma ret_bind {A B} (a : A) (k : A → Py B) (w : World) : bind (ret a) k w = k a w.
Proof. reflexivity. Qed.

Lemma bind_unfold {A B} (m : Py A) (k : A → Py B) (w : World) :
  bind m k w = match m w with
               | (Return a, w') => k a w'
               | (Raise e, w') => (Raise e, w')
               end.
Proof. reflexivity. Qed.

Lemma print_bind {B} (line : string) (k : () → Py B) (w : World) :
  bind (print line) k w
  = k () {| cluster := cluster w; entropy := entropy w;
            stdout := stdout w ++ [line]; calls := calls w |}.
Proof. reflexivity. Qed.

(** [create_session] after the password: the parse comes first and sends
    nothing; then the loop runs; the access information is printed when
    the loop returns. *)
Lemma provision_unfold (self : DozlabSessionManager)
    (session_id user_id rootfs_url vscode_password : string) (kwargs : Kwargs) (w : World) :
  provision self session_id user_id rootfs_url vscode_password kwargs w =
  match safe_load_all (Template.safe_substitute (template self)
          (variables session_id user_id rootfs_url vscode_password kwargs)) with
  | inl e => (Raise (YamlError e), w)
  | inr resources =>
      match create_resources self session_id resources ∅ w with
      | (Return created, w1) =>
          (Return created,
           {| cluster := cluster w1; entropy := entropy w1;
              stdout := stdout w1
                ++ access_information session_id user_id rootfs_url vscode_password;
              calls := calls w1 |})
      | (Raise e, w1) => (Raise e, w1)
      end
  end.
Proof.
  unfold provision, load_all, access_information.
  destruct (safe_load_all _) as [e | resources]; [reflexivity |].
  unfold mbind, py_bind. rewrite ret_bind, bind_unfold.
  destruct (create_resources _ _ _ _ _) as [[created | e] w1]; [| reflexivity].
  repeat (rewrite print_bind; cbn [cluster entropy stdout calls]).
  rewrite <- !app_assoc. reflexivity.
Qed.

Lemma provision_run (self : DozlabSessionManager)
    (session_id user_id rootfs_url vscode_password : string) (kwargs : Kwargs) (w : World) :
  let r := provision self session_id user_id rootfs_url vscode_password kwargs w in
  entropy r.2 = entropy w ∧
  ∃ log, calls r.2 = calls w ++ log ∧ creation_log self session_id ∅ r.1 log.
Proof.
  cbv zeta. rewrite provision_unfold.
  destruct (safe_load_all _) as [e | resources].
  { cbn. split; [done |]. exists []. by rewrite app_nil_r. }
  destruct (create_resources_run self session_id resources ∅ w)
    as (Hentropy & log & Hcalls & Hlog).
  destruct (create_resources self session_id resources ∅ w) as [[created | e] w1];
    cbn [fst snd cluster entropy stdout calls] in *; (split; [done |]); by exists log.
Qed.

Lemma resolve_password_run (kwargs : Kwargs) (w : World) :
  ∃ password rest,
    resolve_password kwargs w
    = (Return password, {| cluster := cluster w; entropy := rest;
                           stdout := stdout w; calls := calls w |}).
Proof.
  unfold resolve_password, _generate_password.
  destruct (vscode_password kwargs) as [supplied |];
    [destruct (negb (String.eqb supplied ""))|];
    try (destruct (token_urlsafe 32 (entropy w)) as [token rest]; by eexists _, _).
  exists supplied, (entropy w). by destruct w.
Qed.

Lemma create_session_run (self : DozlabSessionManager)
    (session_id user_id rootfs_url : string) (kwargs : Kwargs) (w : World) :
  let r := create_session self session_id user_id rootfs_url kwargs w in
  ∃ log, calls r.2 = calls w ++ log ∧ creation_log self session_id ∅ r.1 log.
Proof.
  cbv zeta. unfold create_session, mbind, py_bind, bind.
  destruct (resolve_password_run kwargs w) as (password & rest & ->).
  destruct (provision_run self session_id user_id rootfs_url password kwargs
              {| cluster := cluster w; entropy := rest;
                 stdout := stdout w; calls := calls w |})
    as (_ & log & Hcalls & Hlog).
  by exists log.
Qed.

(** *** Requests and the cluster

    The log of calls is only as good as its tie to the server: the
    methods reach the cluster through the logged requests alone. *)

Lemma served_app (cl mid final : Cluster) (log1 log2 : list Call) :
  served cl log1 mid → served mid log2 final → served cl (log1 ++ log2) final.
Proof.
  revert cl. induction log1 as [|c log1 IH]; intros cl; cbn [served app].
  - by intros ->.
  - destruct c; intros (cl' & Hcall & Hrest) Hlog2; exists cl'; eauto.
Qed.

Lemma served_app_inv (cl final : Cluster) (log1 log2 : list Call) :
  served cl (log1 ++ log2) final →
  ∃ mid, served cl log1 mid ∧ served mid log2 final.
Proof.
  revert cl. induction log1 as [|c log1 IH]; intros cl; cbn [served app].
  - intros Hlog2. by exists cl.
  - destruct c; intros (cl' & Hcall & Hrest);
      destruct (IH _ Hrest) as (mid & Hlog1 & Hlog2); exists mid; eauto.
Qed.

Lemma traced_ret {A} (a : A) : traced (ret a).
Proof. intros w. exists []. by rewrite app_nil_r. Qed.

Lemma traced_raise {A} (e : Exception) : traced (raise (A := A) e).
Proof. intros w. exists []. by rewrite app_nil_r. Qed.

Lemma traced_print (line : string) : traced (print line).
Proof. intros w. exists []. by rewrite app_nil_r. Qed.

Lemma traced_bind {A B} (m : Py A) (k : A → Py B) :
  traced m → (∀ a, traced (k a)) → traced (bind m k).
Proof.
  intros Hm Hk w. unfold bind.
  destruct (Hm w) as (log1 & Hcalls1 & Hserved1).
  destruct (m w) as [[a | e] w1]; cbn [fst snd] in *; [| by exists log1].
  destruct (Hk a w1) as (log2 & Hcalls2 & Hserved2).
  exists (log1 ++ log2). split; [by rewrite Hcalls2, Hcalls1, app_assoc |].
  by apply served_app with (cluster w1).
Qed.

Lemma traced_try_except {A} (body : Py A) (handler : ApiException → Py A) :
  traced body → (∀ e, traced (handler e)) → traced (try_except body handler).
Proof.
  intros Hbody Hhandler w. unfold try_except.
  destruct (Hbody w) as (log1 & Hcalls1 & Hserved1).
  destruct (body w) as [[a | [e | e | obj attr]] w1]; cbn [fst snd] in *;
    try by exists log1.
  destruct (Hhandler e w1) as (log2 & Hcalls2 & Hserved2).
  exists (log1 ++ log2). split; [by rewrite Hcalls2, Hcalls1, app_assoc |].
  by apply served_app with (cluster w1).
Qed.

Lemma traced_api_create (kind : Kind) (ns : string) (manifest : Yaml) :
  traced (api_create kind ns manifest).
Proof.
  intros w. unfold api_create.
  destruct (create_namespaced kind ns manifest (cluster w)) as [answer cl] eqn:Hcall.
  exists [CreateCall kind ns manifest answer]. split; [reflexivity |]. by exists cl.
Qed.

Lemma traced_api_delete (kind : Kind) (name ns : string) :
  traced (api_delete kind name ns).
Proof.
  intros w. unfold api_delete.
  destruct (delete_namespaced kind name ns (cluster w)) as [answer cl] eqn:Hcall.
  exists [DeleteCall kind name ns answer]. split; [reflexivity |]. by exists cl.
Qed.

Lemma traced_api_read_pod (name ns : string) : traced (api_read_pod name ns).
Proof.
  intros w. unfold api_read_pod.
  destruct (read_namespaced_pod name ns (cluster w)) as [answer cl] eqn:Hcall.
  exists [ReadPodCall name ns answer]. split; [reflexivity |]. by exists cl.
Qed.

Lemma traced_get (obj : Yaml) (key : string) (default : Yaml) :
  traced (get obj key default).
Proof.
  unfold get. destruct obj; try apply traced_raise.
  destruct (dict_lookup key entries); apply traced_ret.
Qed.

Lemma traced_load_all (text : string) : traced (load_all text).
Proof.
  unfold load_all. destruct (safe_load_all text); [apply traced_raise | apply traced_ret].
Qed.

Lemma traced_pod_labels (pod : V1Pod ContainerState) : traced (pod_labels pod).
Proof.
  unfold pod_labels. destruct (labels pod); [apply traced_ret | apply traced_raise].
Qed.

Lemma traced_print_items (items : list string) : traced (print_items items).
Proof.
  induction items as [|entry items IH]; cbn [print_items]; [apply traced_ret |].
  apply traced_bind; [apply traced_print | intros _; exact IH].
Qed.

Lemma traced_resolve_password (kwargs : Kwargs) : traced (resolve_password kwargs).
Proof.
  intros w. destruct (resolve_password_run kwargs w) as (password & rest & ->).
  exists []. by rewrite app_nil_r.
Qed.

Ltac traced_step :=
  lazymatch goal with
  | |- traced (ret _) => apply traced_ret
  | |- traced (raise _) => apply traced_raise
  | |- traced (print _) => apply traced_print
  | |- traced (api_create _ _ _) => apply traced_api_create
  | |- traced (api_delete _ _ _) => apply traced_api_delete
  | |- traced (api_read_pod _ _) => apply traced_api_read_pod
  | |- traced (get _ _ _) => apply traced_get
  | |- traced (load_all _) => apply traced_load_all
  | |- traced (pod_labels _) => apply traced_pod_labels
  | |- traced (print_items _) => apply traced_print_items
  | |- traced (bind _ _) => apply traced_bind; [| intros ?]
  | |- traced (try_except _ _) => apply traced_try_except; [| intros ?]
  | |- traced (if ?b then _ else _) => destruct b
  | |- traced (match ?x with _ => _ end) => destruct x
  | |- traced _ => assumption
  end.

Ltac traced_auto := unfold mbind, py_bind, mret, py_ret; cbv beta zeta; repeat traced_step.

Lemma traced_delete_session (self : DozlabSessionManager) (session_id : string) :
  traced (delete_session self session_id).
Proof. unfold delete_session. traced_auto. Qed.

Lemma traced_create_resource (self : DozlabSessionManager) (session_id : string)
    (resource : Yaml) (created : gmap string Ack) :
  traced (create_resource self session_id resource created).
Proof.
  pose proof (traced_delete_session self session_id) as Hcleanup.
  unfold create_resource. traced_auto.
Qed.

Lemma traced_create_resources (self : DozlabSessionManager) (session_id : string)
    (resources : list Yaml) (created : gmap string Ack) :
  traced (create_resources self session_id resources created).
Proof.
  revert created. induction resources as [|resource rest IH]; intros created;
    cbn [create_resources]; [apply traced_ret |].
  apply traced_bind; [apply traced_create_resource | intros created'; apply IH].
Qed.

Lemma traced_provision (self : DozlabSessionManager)
    (session_id user_id rootfs_url vscode_password : string) (kwargs : Kwargs) :
  traced (provision self session_id user_id rootfs_url vscode_password kwargs).
Proof.
  unfold provision. unfold mbind, py_bind; cbv beta zeta.
  apply traced_bind; [apply traced_load_all | intros resources].
  apply traced_bind; [apply traced_create_resources | intros created].
  traced_auto.
Qed.

Lemma traced_create_session (self : DozlabSessionManager)
    (session_id user_id rootfs_url : string) (kwargs : Kwargs) :
  traced (create_session self session_id user_id rootfs_url kwargs).
Proof.
  unfold create_session. unfold mbind, py_bind; cbv beta.
  apply traced_bind; [apply traced_resolve_password | intros password].
  apply traced_provision.
Qed.

(** The requests of a run, read off the log of calls, with what the server
    made of them. *)
Lemma run_log {A} (m : Py A) (w : World) (log : list Call) :
  traced m → calls (m w).2 = calls w ++ log →
  served (cluster w) log (cluster (m w).2).
Proof.
  intros Hm Hcalls. destruct (Hm w) as (log' & Hcalls' & Hserved).
  rewrite Hcalls in Hcalls'. by apply app_inv_head in Hcalls' as ->.
Qed.

End Runs.

(** ** The naming scheme *)

(** C4 (as amended).  The three names are functions of the session id, and
    for two distinct session ids the pod names differ, the service names
    differ and the secret names differ; a service name never equals a pod
    or secret name; the pod name of one id equals the secret name of the
    other exactly when the first id is the second followed by
    ["-secrets"]. *)
Theorem canonical_names_injective_per_kind (id1 id2 : string) :
  id1 ≠ id2 →
  pod_name id1 ≠ pod_name id2
  ∧ service_name id1 ≠ service_name id2
  ∧ secret_name id1 ≠ secret_name id2
  ∧ service_name id1 ≠ pod_name id2
  ∧ service_name id1 ≠ secret_name id2
  ∧ (pod_name id1 = secret_name id2 ↔ id1 = id2 +:+ "-secrets").
Proof.
  intros Hne. unfold pod_name, service_name, secret_name.
  repeat split.
  - intros Heq. by apply append_inj_l in Heq.
  - intros Heq. by apply append_inj_l in Heq.
  - intros Heq. apply append_inj_l in Heq. by apply append_inj_r in Heq.
  - simpl. discriminate.
  - simpl. discriminate.
  - intros Heq. by apply append_inj_l in Heq.
  - by intros ->.
Qed.

Lemma canonical_names_injective_per_kind_witness :
  pod_name "demo-1" ≠ pod_name "demo-2"
  ∧ service_name "demo-1" ≠ service_name "demo-2"
  ∧ secret_name "demo-1" ≠ secret_name "demo-2"
  ∧ service_name "demo-1" ≠ pod_name "demo-2"
  ∧ service_name "demo-1" ≠ secret_name "demo-2"
  ∧ (pod_name "demo-1" = secret_name "demo-2" ↔ "demo-1" = "demo-2" +:+ "-secrets").
Proof. apply (canonical_names_injective_per_kind "demo-1" "demo-2"). discriminate. Defined.

(** C4 (as stated) fails across kinds: the ids ["a-secrets"] and ["a"] are
    distinct, and the pod name of the first is the secret name of the
    second. *)
Lemma canonical_names_collide_across_kinds :
  "a-secrets" ≠ "a" ∧ pod_name "a-secrets" = secret_name "a".
Proof. split; [discriminate | reflexivity]. Qed.

(** ** The template renderer *)

(** C5 (as amended).  [safe_substitute] is a total function of the template
    and the mapping: an absent name is no error.  The template has one
    reading as a sequence of pieces in the documented sense (["$$"],
    ["$identifier"] taken as far as it goes, ["${identifier}"], a ["$"] on
    its own, and the other characters), and it is the one the scan finds.
    The output is the concatenation, piece by piece, of: the mapping's
    value for a placeholder whose name is in the mapping; the placeholder's
    own text, unchanged, for a placeholder whose name is not in the
    mapping; ["$"] for the escape; and the text itself for everything
    else. *)
Theorem safe_substitute_resolves_present_keeps_absent
    (template : string) (mapping : gmap string string) :
  Template.Scans template (Template.pieces template)
  ∧ (∀ ps, Template.Scans template ps → ps = Template.pieces template)
  ∧ Template.join (Template.piece_text <$> Template.pieces template) = template
  ∧ ∃ rendered : list string,
      Template.safe_substitute template mapping = Template.join rendered
      ∧ Forall2 (λ p out,
          match Template.placeholder p with
          | Some name =>
              match mapping !! name with
              | Some value => out = value
              | None => out = Template.piece_text p
              end
          | None =>
              out = match p with
                    | Template.Match Template.Escaped => "$"
                    | _ => Template.piece_text p
                    end
          end) (Template.pieces template) rendered.
Proof.
  split; [apply TemplateFacts.pieces_scans |].
  split.
  { intros ps Hps.
    exact (TemplateFacts.scans_unique _ _ _ Hps (TemplateFacts.pieces_scans template)). }
  split; [apply TemplateFacts.pieces_from_text |].
  exists (Template.render (Template.convert mapping) <$> Template.pieces template).
  split; [apply TemplateFacts.pattern_sub_pieces |].
  apply Forall2_fmap_r, Forall_Forall2_diag, Forall_forall.
  intros p _. pose proof (TemplateFacts.render_convert mapping p) as Hp.
  destruct (Template.placeholder p) as [name |]; [| exact Hp].
  by destruct (mapping !! name).
Qed.

(** C5 (as stated) fails on the output: the name [A] is in the mapping, and
    the output for the template ["$${A}"] is the text ["${A}"], which reads
    as a placeholder for [A]; so does the output for ["${A}"] when the
    value of [A] is that very text.  The output is not scanned again. *)
Lemma safe_substitute_output_keeps_placeholder_text :
  let mapping : gmap string string := {[ "A" := "x" ]} in
  mapping !! "A" = Some "x"
  ∧ Template.safe_substitute "$${A}" mapping = "${A}"
  ∧ Template.Scans "${A}" [Template.Match (Template.Braced "A")]
  ∧ Template.safe_substitute "${A}" {[ "A" := "${A}" ]} = "${A}".
Proof.
  cbv zeta. split; [reflexivity |]. split; [vm_compute; reflexivity |].
  split; [| vm_compute; reflexivity].
  apply (Template.scans_braced "A" "" []); [reflexivity | apply Template.scans_end].
Qed.

(** ** The session orchestrator: creation *)

(** C1.  When some create request of [create_session] is answered with an
    [ApiException], that request is the last create request of the call; it
    is followed by the delete requests for the pod, the service and the
    secret named after the session id, in this order and whatever their
    answers; and the call raises that same exception instead of returning
    the resources created so far.  The requests are those the server
    received: each answer is the one it gave in the cluster the earlier
    requests had left, and the call leaves the cluster of the last delete
    request. *)
Theorem create_session_rolls_back_on_failed_submission `{P : Platform}
    (self : DozlabSessionManager) (session_id user_id rootfs_url : string)
    (kwargs : Kwargs) (w : World) :
  let r := create_session self session_id user_id rootfs_url kwargs w in
  existsb rejected (drop (length (calls w)) (calls r.2)) = true →
  ∃ (submitted : list Call) (kind : Kind) (manifest : Yaml) (e : ApiException)
    (pod service secret : ApiException + ()),
    r.1 = Raise (ApiError e)
    ∧ forallb accepted submitted = true
    ∧ calls r.2 = calls w ++ submitted ++
        [CreateCall kind (namespace self) manifest (inl e);
         DeleteCall Pod (pod_name session_id) (namespace self) pod;
         DeleteCall Service (service_name session_id) (namespace self) service;
         DeleteCall Secret (secret_name session_id) (namespace self) secret]
    ∧ served (cluster w)
        (submitted ++
         [CreateCall kind (namespace self) manifest (inl e);
          DeleteCall Pod (pod_name session_id) (namespace self) pod;
          DeleteCall Service (service_name session_id) (namespace self) service;
          DeleteCall Secret (secret_name session_id) (namespace self) secret])
        (cluster r.2).
Proof.
  intros r. subst r.
  destruct (create_session_run self session_id user_id rootfs_url kwargs w)
    as (log & Hcalls & Hlog).
  pose proof (run_log _ w log
                (traced_create_session self session_id user_id rootfs_url kwargs) Hcalls)
    as Hserved.
  rewrite Hcalls, drop_app_length. intros Hfailed.
  assert (Hnone : ∀ l, forallb accepted l = true → existsb rejected l = false).
  { induction l as [|c l IH]; [done |]. cbn [forallb existsb].
    intros [Hc Hl]%andb_prop. rewrite (IH Hl), orb_false_r.
    by destruct c as [? ? ? [|] | |]. }
  destruct (create_session self session_id user_id rootfs_url kwargs w).1
    as [created | [e | e | obj attr]]; cbn [creation_log] in Hlog.
  - destruct Hlog as [Hall _]. rewrite (Hnone log Hall) in Hfailed. discriminate.
  - destruct Hlog as (submitted & kind & manifest & pod & service & secret & -> & Hall).
    by exists submitted, kind, manifest, e, pod, service, secret.
  - rewrite (Hnone log Hlog) in Hfailed. discriminate.
  - rewrite (Hnone log Hlog) in Hfailed. discriminate.
Qed.

Lemma create_session_rolls_back_witness :
  let w := Sim.boot Sim.demo_table service_taken in
  let r := create_session (P := Sim.platform Sim.demo_table) Sim.demo_manager
             "demo-1" "alice" "https://x/img.ext4" no_kwargs w in
  ∃ (submitted : list Call) (kind : Kind) (manifest : Yaml) (e : ApiException)
    (pod service secret : ApiException + ()),
    r.1 = Raise (ApiError e)
    ∧ forallb accepted submitted = true
    ∧ calls r.2 = calls w ++ submitted ++
        [CreateCall kind (namespace Sim.demo_manager) manifest (inl e);
         DeleteCall Pod (pod_name "demo-1") (namespace Sim.demo_manager) pod;
         DeleteCall Service (service_name "demo-1") (namespace Sim.demo_manager) service;
         DeleteCall Secret (secret_name "demo-1") (namespace Sim.demo_manager) secret]
    ∧ served (cluster w)
        (submitted ++
         [CreateCall kind (namespace Sim.demo_manager) manifest (inl e);
          DeleteCall Pod (pod_name "demo-1") (namespace Sim.demo_manager) pod;
          DeleteCall Service (service_name "demo-1") (namespace Sim.demo_manager) service;
          DeleteCall Secret (secret_name "demo-1") (namespace Sim.demo_manager) secret])
        (cluster r.2).
Proof.
  refine (create_session_rolls_back_on_failed_submission
            (P := Sim.platform Sim.demo_table) Sim.demo_manager
            "demo-1" "alice" "https://x/img.ext4" no_kwargs
            (Sim.boot Sim.demo_table service_taken) _).
  vm_compute. reflexivity.
Defined.

(** C2 (as amended).  When [create_session] returns, every request it sent
    is a create request that the server accepted, and the value returned
    is the dictionary obtained by storing, request after request, the
    server's acknowledgment under the key of its kind: one entry per kind
    submitted, holding the acknowledgment of the last resource of that
    kind.  Nothing is added to the dictionary for the credential; the
    credential that was resolved is handed over in the access information,
    the last lines the call prints. *)
Theorem create_session_returns_acknowledgments `{P : Platform}
    (self : DozlabSessionManager) (session_id user_id rootfs_url : string)
    (kwargs : Kwargs) (w : World) (created : gmap string Ack) :
  let r := create_session self session_id user_id rootfs_url kwargs w in
  r.1 = Return created →
  ∃ (log : list Call) (password : string) (before : list string),
    calls r.2 = calls w ++ log
    ∧ forallb accepted log = true
    ∧ served (cluster w) log (cluster r.2)
    ∧ created = foldl record ∅ log
    ∧ (resolve_password kwargs w).1 = Return password
    ∧ stdout r.2
      = before ++ access_information session_id user_id rootfs_url password.
Proof.
  intros r Hreturn. subst r.
  destruct (create_session_run self session_id user_id rootfs_url kwargs w)
    as (log & Hcalls & Hlog).
  pose proof (run_log _ w log
                (traced_create_session self session_id user_id rootfs_url kwargs) Hcalls)
    as Hserved.
  rewrite Hreturn in Hlog. destruct Hlog as [Hall ->].
  exists log.
  revert Hreturn Hcalls Hserved.
  unfold create_session, mbind, py_bind. rewrite bind_unfold.
  destruct (resolve_password_run kwargs w) as (password & rest & ->).
  rewrite provision_unfold.
  destruct (safe_load_all _) as [e | resources]; [discriminate |].
  destruct (create_resources self session_id resources ∅ _) as [[created1 | e] w2];
    [| discriminate].
  cbn [fst snd cluster stdout calls]. intros _ Hcalls Hserved.
  by exists password, (stdout w2).
Qed.

Lemma create_session_returns_acknowledgments_witness :
  let w := Sim.boot Sim.demo_table Sim.empty_cluster in
  let r := create_session (P := Sim.platform Sim.demo_table) Sim.demo_manager
             "demo-1" "alice" "https://x/img.ext4" no_kwargs w in
  ∃ (log : list Call) (password : string) (before : list string),
    calls r.2 = calls w ++ log
    ∧ forallb accepted log = true
    ∧ served (cluster w) log (cluster r.2)
    ∧ (<["secret" := Sim.manifest "Secret" "lab-session-demo-1-secrets"]>
         (<["service" := Sim.manifest "Service" "lab-service-demo-1"]>
            (<["pod" := Sim.manifest "Pod" "lab-session-demo-1"]> ∅)))
      = foldl record ∅ log
    ∧ (resolve_password no_kwargs w).1 = Return password
    ∧ stdout r.2
      = before ++ access_information "demo-1" "alice" "https://x/img.ext4" password.
Proof.
  refine (create_session_returns_acknowledgments
            (P := Sim.platform Sim.demo_table) Sim.demo_manager
            "demo-1" "alice" "https://x/img.ext4" no_kwargs
            (Sim.boot Sim.demo_table Sim.empty_cluster) _ _).
  vm_compute. reflexivity.
Defined.

(** C2 (as stated) fails: two successful calls on the three-document
    template that differ in the credential only, and print it, return the
    same value, so the value returned does not hold the credential. *)
Lemma create_session_result_omits_credential :
  let run password :=
    create_session (P := Sim.platform Sim.demo_table) Sim.demo_manager
      "demo-1" "alice" "https://x/img.ext4" (with_password no_kwargs (Some password))
      (Sim.boot Sim.demo_table Sim.empty_cluster) in
  "alpha" ≠ "beta"
  ∧ "VS Code Password: alpha" ∈ stdout (run "alpha").2
  ∧ "VS Code Password: beta" ∈ stdout (run "beta").2
  ∧ ∃ created, (run "alpha").1 = Return created ∧ (run "beta").1 = Return created.
Proof.
  cbv zeta. split; [discriminate |]. split; [| split].
  - vm_compute. apply list_elem_of_lookup_2 with 8%nat. reflexivity.
  - vm_compute. apply list_elem_of_lookup_2 with 8%nat. reflexivity.
  - eexists. split; vm_compute; reflexivity.
Qed.

(** C6.  When the text obtained from the template by substitution does not
    parse, [create_session] raises the parser's error and has sent no
    request: the log of calls, the cluster and the output are those left by
    the resolution of the password. *)
Theorem create_session_parse_error_before_submission `{P : Platform}
    (self : DozlabSessionManager) (session_id user_id rootfs_url : string)
    (kwargs : Kwargs) (w w1 : World) (password : string) (e : YAMLError) :
  resolve_password kwargs w = (Return password, w1) →
  safe_load_all (Template.safe_substitute (template self)
                   (variables session_id user_id rootfs_url password kwargs)) = inl e →
  create_session self session_id user_id rootfs_url kwargs w = (Raise (YamlError e), w1)
  ∧ calls w1 = calls w
  ∧ cluster w1 = cluster w
  ∧ stdout w1 = stdout w.
Proof.
  intros Hpassword Hparse.
  unfold create_session, mbind, py_bind. rewrite bind_unfold, Hpassword.
  rewrite provision_unfold, Hparse.
  destruct (resolve_password_run kwargs w) as (password' & rest & Hrun).
  rewrite Hrun in Hpassword. by injection Hpassword as _ <-.
Qed.

Lemma create_session_parse_error_witness :
  create_session (P := Sim.platform Sim.demo_table) broken_manager
    "demo-1" "alice" "https://x/img.ext4" no_kwargs (Sim.boot Sim.demo_table Sim.empty_cluster)
  = (Raise (YamlError {| problem := "could not parse the document stream" |}),
     {| cluster := Sim.empty_cluster : @Cluster (Sim.platform Sim.demo_table);
        entropy := 1%nat : @Entropy (Sim.platform Sim.demo_table);
        stdout := []; calls := [] |})
  ∧ calls {| cluster := Sim.empty_cluster : @Cluster (Sim.platform Sim.demo_table);
             entropy := 1%nat : @Entropy (Sim.platform Sim.demo_table);
             stdout := []; calls := [] |}
    = calls (Sim.boot Sim.demo_table Sim.empty_cluster)
  ∧ cluster {| cluster := Sim.empty_cluster : @Cluster (Sim.platform Sim.demo_table);
               entropy := 1%nat : @Entropy (Sim.platform Sim.demo_table);
               stdout := []; calls := [] |}
    = cluster (Sim.boot Sim.demo_table Sim.empty_cluster)
  ∧ stdout {| cluster := Sim.empty_cluster : @Cluster (Sim.platform Sim.demo_table);
              entropy := 1%nat : @Entropy (Sim.platform Sim.demo_table);
              stdout := []; calls := [] |}
    = stdout (Sim.boot Sim.demo_table Sim.empty_cluster).
Proof.
  refine (create_session_parse_error_before_submission
            (P := Sim.platform Sim.demo_table) broken_manager
            "demo-1" "alice" "https://x/img.ext4" no_kwargs
            (Sim.boot Sim.demo_table Sim.empty_cluster) _ "token-0" _ _ _);
    reflexivity.
Defined.

(** ** The session orchestrator: deletion *)

(** C3.  [delete_session] asks the server to delete the pod, the service and
    the secret named after the session, in this order and each in the
    cluster the request before left, and returns.  Its report is the single
    line "session not found" exactly when the three answers are 404; any
    other combination of answers (a resource deleted, or a failure other
    than 404) gives a different report, and three successes give the
    "deleted" line followed by the three resources. *)
Theorem delete_session_report_distinguishes_absent `{P : Platform}
    (self : DozlabSessionManager) (session_id : string) (w : World) :
  let r := delete_session self session_id w in
  ∃ (pod service secret : ApiException + ()) (c1 c2 : Cluster) (report : list string),
    delete_namespaced Pod (pod_name session_id) (namespace self) (cluster w) = (pod, c1)
    ∧ delete_namespaced Service (service_name session_id) (namespace self) c1
      = (service, c2)
    ∧ delete_namespaced Secret (secret_name session_id) (namespace self) c2
      = (secret, cluster r.2)
    ∧ r.1 = Return ()
    ∧ calls r.2 = calls w ++
        [DeleteCall Pod (pod_name session_id) (namespace self) pod;
         DeleteCall Service (service_name session_id) (namespace self) service;
         DeleteCall Secret (secret_name session_id) (namespace self) secret]
    ∧ stdout r.2 = stdout w ++ report
    ∧ report = deletion_report session_id pod service secret
    ∧ (report = ["✗ Session " +:+ session_id +:+ " not found"]
       ↔ not_found pod && not_found service && not_found secret = true)
    ∧ (if succeeded pod && succeeded service && succeeded secret
       then report = ["✓ Deleted session " +:+ session_id +:+ ":";
                      "  - Pod: " +:+ pod_name session_id;
                      "  - Service: " +:+ service_name session_id;
                      "  - Secret: " +:+ secret_name session_id]
       else True).
Proof.
  cbv zeta. rewrite delete_session_run.
  destruct (delete_namespaced Pod _ _ _) as [pod c1] eqn:Hpod.
  destruct (delete_namespaced Service _ _ _) as [service c2] eqn:Hservice.
  destruct (delete_namespaced Secret _ _ _) as [secret c3] eqn:Hsecret.
  exists pod, service, secret, c1, c2, (deletion_report session_id pod service secret).
  cbn [fst snd calls stdout cluster].
  do 7 (split; [first [reflexivity | assumption] |]).
  unfold deletion_report, warning, item, not_found, succeeded.
  destruct pod as [e1 | []], service as [e2 | []], secret as [e3 | []];
    repeat match goal with
           | |- context [(status ?e =? 404)%Z] => destruct (status e =? 404)%Z
           end;
    cbn [negb andb app fmap list_fmap]; (split; [split |]); intros;
    try discriminate; reflexivity.
Qed.

Lemma sim_delete_cases (kind : Kind) (name ns : string) (cl : Sim.store) :
  (Sim.is_forbidden kind cl = true
   ∧ Sim.delete kind name ns cl = Sim.refuse 403 "Forbidden" cl)
  ∨ (sim_absent kind name ns cl
     ∧ Sim.delete kind name ns cl = Sim.refuse 404 "Not Found" cl)
  ∨ (Sim.is_forbidden kind cl = false
     ∧ is_Some (Sim.objects cl !! (created_key kind, ns, name))
     ∧ Sim.delete kind name ns cl
       = (inr (), {| Sim.objects := base.delete (created_key kind, ns, name) (Sim.objects cl);
                     Sim.forbidden := Sim.forbidden cl |})).
Proof.
  unfold Sim.delete, sim_absent.
  destruct (Sim.is_forbidden kind cl); [by left |].
  destruct (Sim.objects cl !! _) as [found |] eqn:Hfound; [right; right | right; left]; eauto.
Qed.

(** The in-memory cluster is such a server. *)
#[export] Program Instance sim_delete_laws (table : list (string * list Yaml))
    : DeleteLaws (Sim.platform table) := {| absent := sim_absent |}.
Next Obligation.
  intros table kind name ns cl cl'. cbn.
  destruct (sim_delete_cases kind name ns cl) as [[_ ->] | [[_ ->] | (Hok & _ & ->)]];
    unfold Sim.refuse; intros [= <-].
  split; [exact Hok | apply lookup_delete_eq].
Qed.
Next Obligation.
  intros table kind name ns cl cl' e. cbn.
  destruct (sim_delete_cases kind name ns cl) as [[_ ->] | [[Habsent ->] | (_ & _ & ->)]];
    unfold Sim.refuse; intros [= <- <-]; [discriminate | done].
Qed.
Next Obligation.
  intros table kind name ns kind' name' ns' cl cl' answer [Hok Hnone]. cbn.
  destruct (sim_delete_cases kind' name' ns' cl) as [[_ ->] | [[_ ->] | (_ & _ & ->)]];
    unfold Sim.refuse; intros [= <- <-]; try done.
  split; [exact Hok |]. cbn.
  rewrite lookup_delete. by case_decide.
Qed.
Next Obligation.
  intros table kind name ns cl Habsent. cbn.
  destruct (sim_delete_cases kind name ns cl)
    as [[Hforbidden _] | [[_ ->] | (_ & [found Hfound] & _)]].
  - destruct Habsent as [Hok _]. congruence.
  - by eexists _, _.
  - destruct Habsent as [_ Hnone]. congruence.
Qed.

(** C7.  After a [delete_session] whose three delete requests each removed
    the resource or found it missing, the pod, the service and the secret
    of the session are absent from the cluster; a second [delete_session]
    for the same session is answered 404 by the server for the pod, the
    service and the secret, prints "session not found" and nothing else,
    and returns without raising.  The answers of both calls are those the
    server gave, each in the cluster the request before left. *)
Theorem delete_session_idempotent `{P : Platform} `{!DeleteLaws P}
    (self : DozlabSessionManager) (session_id : string) (w : World) :
  let first := delete_session self session_id w in
  forallb cleared (drop (length (calls w)) (calls first.2)) = true →
  let second := delete_session self session_id first.2 in
  ∃ (pod service secret : ApiException + ()) (c1 c2 : Cluster)
    (e1 e2 e3 : ApiException) (d1 d2 : Cluster),
    delete_namespaced Pod (pod_name session_id) (namespace self) (cluster w) = (pod, c1)
    ∧ delete_namespaced Service (service_name session_id) (namespace self) c1
      = (service, c2)
    ∧ delete_namespaced Secret (secret_name session_id) (namespace self) c2
      = (secret, cluster first.2)
    ∧ calls first.2 = calls w ++
        [DeleteCall Pod (pod_name session_id) (namespace self) pod;
         DeleteCall Service (service_name session_id) (namespace self) service;
         DeleteCall Secret (secret_name session_id) (namespace self) secret]
    ∧ absent Pod (pod_name session_id) (namespace self) (cluster first.2)
    ∧ absent Service (service_name session_id) (namespace self) (cluster first.2)
    ∧ absent Secret (secret_name session_id) (namespace self) (cluster first.2)
    ∧ delete_namespaced Pod (pod_name session_id) (namespace self) (cluster first.2)
      = (inl e1, d1)
    ∧ delete_namespaced Service (service_name session_id) (namespace self) d1
      = (inl e2, d2)
    ∧ delete_namespaced Secret (secret_name session_id) (namespace self) d2
      = (inl e3, cluster second.2)
    ∧ second.1 = Return ()
    ∧ status e1 = 404%Z ∧ status e2 = 404%Z ∧ status e3 = 404%Z
    ∧ calls second.2 = calls first.2 ++
        [DeleteCall Pod (pod_name session_id) (namespace self) (inl e1);
         DeleteCall Service (service_name session_id) (namespace self) (inl e2);
         DeleteCall Secret (secret_name session_id) (namespace self) (inl e3)]
    ∧ stdout second.2 = stdout first.2 ++ ["✗ Session " +:+ session_id +:+ " not found"].
Proof.
  cbv zeta. rewrite (delete_session_run self session_id w).
  destruct (delete_namespaced Pod _ _ _) as [pod c1] eqn:Hpod.
  destruct (delete_namespaced Service _ _ _) as [service c2] eqn:Hservice.
  destruct (delete_namespaced Secret _ _ _) as [secret c3] eqn:Hsecret.
  cbn [fst snd calls cluster]. rewrite drop_app_length. cbn [forallb cleared].
  intros Hcleared.
  assert (Hgone : ∀ kind name cl cl' answer,
            delete_namespaced kind name (namespace self) cl = (answer, cl') →
            match answer with inl e => (status e =? 404)%Z | inr _ => true end = true →
            absent kind name (namespace self) cl').
  { intros kind name cl cl' [e | []] Hrun Hanswer.
    - apply (absent_after_404 _ _ _ _ _ _ Hrun). by apply Z.eqb_eq.
    - exact (absent_after_delete _ _ _ _ _ Hrun). }
  apply andb_prop in Hcleared as [H1 Hcleared].
  apply andb_prop in Hcleared as [H2 Hcleared].
  apply andb_prop in Hcleared as [H3 _].
  pose proof (Hgone _ _ _ _ _ Hpod H1) as Apod.
  pose proof (Hgone _ _ _ _ _ Hservice H2) as Aservice.
  pose proof (Hgone _ _ _ _ _ Hsecret H3) as Asecret.
  pose proof (absent_preserved _ _ _ _ _ _ _ _ _ Apod Hservice) as Apod2.
  pose proof (absent_preserved _ _ _ _ _ _ _ _ _ Apod2 Hsecret) as Apod3.
  pose proof (absent_preserved _ _ _ _ _ _ _ _ _ Aservice Hsecret) as Aservice3.
  destruct (absent_gives_404 _ _ _ _ Apod3) as (e1 & d1 & Hrun1 & He1).
  pose proof (absent_preserved _ _ _ _ _ _ _ _ _ Aservice3 Hrun1) as Aservice4.
  pose proof (absent_preserved _ _ _ _ _ _ _ _ _ Asecret Hrun1) as Asecret4.
  destruct (absent_gives_404 _ _ _ _ Aservice4) as (e2 & d2 & Hrun2 & He2).
  pose proof (absent_preserved _ _ _ _ _ _ _ _ _ Asecret4 Hrun2) as Asecret5.
  destruct (absent_gives_404 _ _ _ _ Asecret5) as (e3 & d3 & Hrun3 & He3).
  exists pod, service, secret, c1, c2, e1, e2, e3, d1, d2.
  rewrite delete_session_run. cbn [cluster].
  rewrite Hrun1, Hrun2, Hrun3. cbn [fst snd calls stdout cluster].
  unfold deletion_report, warning, item. rewrite He1, He2, He3.
  repeat (split; [first [reflexivity | assumption] |]). done.
Qed.

Lemma delete_session_idempotent_witness :
  let w := Sim.boot Sim.demo_table demo_cluster in
  let first := delete_session (P := Sim.platform Sim.demo_table) Sim.demo_manager
                 "demo-1" w in
  let second := delete_session Sim.demo_manager "demo-1" first.2 in
  ∃ (pod service secret : ApiException + ()) (c1 c2 : Cluster)
    (e1 e2 e3 : ApiException) (d1 d2 : Cluster),
    delete_namespaced Pod (pod_name "demo-1") (namespace Sim.demo_manager) (cluster w)
    = (pod, c1)
    ∧ delete_namespaced Service (service_name "demo-1") (namespace Sim.demo_manager) c1
      = (service, c2)
    ∧ delete_namespaced Secret (secret_name "demo-1") (namespace Sim.demo_manager) c2
      = (secret, cluster first.2)
    ∧ calls first.2 = calls w ++
        [DeleteCall Pod (pod_name "demo-1") (namespace Sim.demo_manager) pod;
         DeleteCall Service (service_name "demo-1") (namespace Sim.demo_manager) service;
         DeleteCall Secret (secret_name "demo-1") (namespace Sim.demo_manager) secret]
    ∧ absent Pod (pod_name "demo-1") (namespace Sim.demo_manager) (cluster first.2)
    ∧ absent Service (service_name "demo-1") (namespace Sim.demo_manager)
        (cluster first.2)
    ∧ absent Secret (secret_name "demo-1") (namespace Sim.demo_manager) (cluster first.2)
    ∧ delete_namespaced Pod (pod_name "demo-1") (namespace Sim.demo_manager)
        (cluster first.2)
      = (inl e1, d1)
    ∧ delete_namespaced Service (service_name "demo-1") (namespace Sim.demo_manager) d1
      = (inl e2, d2)
    ∧ delete_namespaced Secret (secret_name "demo-1") (namespace Sim.demo_manager) d2
      = (inl e3, cluster second.2)
    ∧ second.1 = Return ()
    ∧ status e1 = 404%Z ∧ status e2 = 404%Z ∧ status e3 = 404%Z
    ∧ calls second.2 = calls first.2 ++
        [DeleteCall Pod (pod_name "demo-1") (namespace Sim.demo_manager) (inl e1);
         DeleteCall Service (service_name "demo-1") (namespace Sim.demo_manager) (inl e2);
         DeleteCall Secret (secret_name "demo-1") (namespace Sim.demo_manager) (inl e3)]
    ∧ stdout second.2 = stdout first.2 ++ ["✗ Session " +:+ "demo-1" +:+ " not found"].
Proof.
  refine (delete_session_idempotent (P := Sim.platform Sim.demo_table)
            Sim.demo_manager "demo-1" (Sim.boot Sim.demo_table demo_cluster) _).
  vm_compute. reflexivity.
Defined.

(** ** The session inspector *)

(** [get_session_status] reads the pod named after the session.  When the
    read is answered with an [ApiException] it returns [None], and for the
    answer 404 it prints "session not found".  When the pod carries labels
    it returns a status whose phase is the pod's phase as it is, with the
    session id and the [user-id] label, and whose container list is empty
    when the pod has no container statuses yet and has one entry per
    reported container otherwise; nothing is raised or printed.  When the
    pod carries no labels the lookup of [user-id] raises. *)
Lemma get_session_status_outcomes `{P : Platform}
    (self : DozlabSessionManager) (session_id : string) (w : World) :
  let r := get_session_status self session_id w in
  match (read_namespaced_pod (pod_name session_id) (namespace self) (cluster w)).1 with
  | inl e =>
      r.1 = Return None
      ∧ stdout r.2 = stdout w ++
          [if (status e =? 404)%Z
           then "Session " +:+ session_id +:+ " not found"
           else "Error getting session status: " +:+ reason e]
  | inr pod =>
      match labels pod with
      | None => r.1 = Raise (AttributeError YNull "get") ∧ stdout r.2 = stdout w
      | Some ls =>
          ∃ st : SessionStatus,
            r.1 = Return (Some st)
            ∧ st_session_id st = session_id
            ∧ st_phase st = pod_phase pod
            ∧ st_user_id st = ls !! "user-id"
            ∧ st_created st = creation_timestamp pod
            ∧ st_containers st = match container_statuses pod with
                                 | None => []
                                 | Some reported => container_info <$> reported
                                 end
            ∧ stdout r.2 = stdout w
      end
  end.
Proof.
  cbv zeta. unfold get_session_status, pod_labels. run_py.
  destruct (read_namespaced_pod _ _ _) as [[e | pod] cl]; cbn [fst snd].
  - destruct (status e =? 404)%Z; by cbn.
  - destruct (labels pod) as [ls |]; [| by cbn].
    eexists. split; [reflexivity |]. cbn.
    repeat split. by destruct (container_statuses pod) as [[|c cs] |].
Qed.

(** C8 fails on the code for a pod that carries no labels: the pod of
    session [demo-1] is there, in phase [Pending] and with no container
    statuses yet, and [get_session_status] raises [AttributeError] at the
    lookup of the [user-id] label instead of returning the phase and an
    empty container list.  Nothing is printed. *)
Theorem get_session_status_unlabelled_pod :
  let w := Sim.boot Sim.demo_table demo_cluster in
  let r := get_session_status (P := Sim.platform Sim.demo_table) Sim.demo_manager
             "demo-1" w in
  read_namespaced_pod (pod_name "demo-1") (namespace Sim.demo_manager) (cluster w)
  = (inr {| labels := None; creation_timestamp := ""; pod_phase := "Pending";
            container_statuses := None |}, cluster w)
  ∧ r.1 = Raise (AttributeError YNull "get")
  ∧ stdout r.2 = [].
Proof. cbv zeta. repeat split; vm_compute; reflexivity. Qed.

(** ** The session orchestrator: documents and options *)

(** A document of a kind other than [Pod], [Service] and [Secret] whose
    [metadata] entry is missing or is a mapping is passed over: no request
    is sent, nothing is printed, [created] is unchanged and the loop goes
    on. *)
Lemma create_resource_skips_other_kinds `{P : Platform}
    (self : DozlabSessionManager) (session_id : string)
    (entries : list (Yaml * Yaml)) (created : gmap string Ack) (w : World) :
  let kind := default YNull (dict_lookup "kind" entries) in
  is_str "Pod" kind = false → is_str "Service" kind = false → is_str "Secret" kind = false →
  match dict_lookup "metadata" entries with
  | Some (YMap _) | None => True
  | Some _ => False
  end →
  create_resource self session_id (YMap entries) created w = (Return created, w).
Proof.
  intros kind Hpod Hservice Hsecret Hmeta. subst kind.
  unfold create_resource, get.
  destruct (truthy (YMap entries)); [| reflexivity]. cbn [negb].
  destruct (dict_lookup "kind" entries) as [kind |];
    cbv [default from_option id] in Hpod, Hservice, Hsecret;
    (destruct (dict_lookup "metadata" entries) as [[ | | | | | meta | ] |]; try done);
    run_py; try (destruct (dict_lookup "name" meta)); cbn [dict_lookup];
    by rewrite ?Hpod, ?Hservice, ?Hsecret.
Qed.

(** C9 fails on the code for such a document: [metadata] is [None], the
    lookup of its [name] raises [AttributeError] before the kind is looked
    at, and [create_session] raises instead of passing the document over.
    No request is sent. *)
Theorem create_session_unknown_kind_null_metadata :
  let r := create_session (P := Sim.platform config_map_table) config_map_manager
             "demo-1" "alice" "https://x/img.ext4" no_kwargs
             (Sim.boot config_map_table Sim.empty_cluster) in
  r.1 = Raise (AttributeError YNull "get") ∧ length (calls r.2) = 0%nat.
Proof. cbv zeta. split; vm_compute; reflexivity. Qed.

(** C10.  An empty [vscode_password] is treated as a missing one: the call
    is the call without the option, and the credential it substitutes and
    prints is the token drawn from [token_urlsafe 32].  A supplied password
    is used, and no token is drawn, exactly when it is not empty. *)
Theorem create_session_empty_password_generates `{P : Platform}
    (self : DozlabSessionManager) (session_id user_id rootfs_url : string)
    (kwargs : Kwargs) (w : World) :
  create_session self session_id user_id rootfs_url (with_password kwargs (Some "")) w
  = create_session self session_id user_id rootfs_url (with_password kwargs None) w
  ∧ create_session self session_id user_id rootfs_url (with_password kwargs (Some "")) w
    = provision self session_id user_id rootfs_url
        (token_urlsafe 32 (entropy w)).1 (with_password kwargs (Some ""))
        {| cluster := cluster w; entropy := (token_urlsafe 32 (entropy w)).2;
           stdout := stdout w; calls := calls w |}
  ∧ ∀ supplied : string,
      create_session self session_id user_id rootfs_url
        (with_password kwargs (Some supplied)) w
      = if String.eqb supplied ""
        then create_session self session_id user_id rootfs_url (with_password kwargs None) w
        else provision self session_id user_id rootfs_url supplied
               (with_password kwargs (Some supplied)) w.
Proof.
  assert (Hgenerated : ∀ option,
    resolve_password (with_password kwargs option) = _generate_password 32 →
    create_session self session_id user_id rootfs_url (with_password kwargs option) w
    = provision self session_id user_id rootfs_url
        (token_urlsafe 32 (entropy w)).1 (with_password kwargs option)
        {| cluster := cluster w; entropy := (token_urlsafe 32 (entropy w)).2;
           stdout := stdout w; calls := calls w |}).
  { intros option Hresolve. unfold create_session, mbind, py_bind.
    rewrite bind_unfold, Hresolve. unfold _generate_password.
    by destruct (token_urlsafe 32 (entropy w)). }
  split; [| split].
  - rewrite (Hgenerated (Some "")), (Hgenerated None); reflexivity.
  - by apply Hgenerated.
  - intros supplied. destruct (String.eqb_spec supplied "") as [-> | Hne].
    + rewrite (Hgenerated (Some "")), (Hgenerated None); reflexivity.
    + unfold create_session, mbind, py_bind. rewrite bind_unfold.
      unfold resolve_password. cbn [vscode_password with_password].
      apply String.eqb_neq in Hne. rewrite Hne. reflexivity.
Qed.

(** * Further properties *)

(** ** The template renderer and the variables *)

(** X1.  A template without ["$"] is returned as it is, whatever the
    mapping. *)
Theorem safe_substitute_plain_text (template : string) (mapping : gmap string string) :
  Template.no_delimiter template = true →
  Template.safe_substitute template mapping = template.
Proof.
  intros Hplain. unfold Template.safe_substitute.
  rewrite <- (append_nil_r template) at 1.
  rewrite (TemplateFacts.pattern_sub_plain _ _ _ Hplain). apply append_nil_r.
Qed.

Lemma safe_substitute_plain_text_witness :
  Template.safe_substitute "apiVersion: v1" (variables "demo-1" "alice" "url" "pw" no_kwargs)
  = "apiVersion: v1".
Proof. apply safe_substitute_plain_text. reflexivity. Defined.

(** X2.  A braced placeholder that follows text without ["$"] is replaced
    by the value of its name, or kept when the mapping has no such name; the
    value is put in as it is, and the scan goes on in the template after
    the placeholder, so that placeholder syntax inside a value is not
    expanded. *)
Theorem safe_substitute_single_pass (mapping : gmap string string) (pre name post : string) :
  Template.no_delimiter pre = true →
  Template.is_identifier name = true →
  Template.safe_substitute (pre +:+ "${" +:+ name +:+ "}" +:+ post) mapping
  = pre +:+ default ("${" +:+ name +:+ "}") (mapping !! name)
        +:+ Template.safe_substitute post mapping.
Proof. apply TemplateFacts.safe_substitute_braced. Qed.

Lemma safe_substitute_single_pass_witness :
  Template.safe_substitute ("name: " +:+ "${" +:+ "A" +:+ "}" +:+ " ${B}")
    (<["A" := "${B}"]> (<["B" := "b"]> ∅))
  = "name: " +:+ default ("${" +:+ "A" +:+ "}")
                   ((<["A" := "${B}"]> (<["B" := "b"]> ∅) : gmap string string) !! "A")
        +:+ Template.safe_substitute " ${B}" (<["A" := "${B}"]> (<["B" := "b"]> ∅)).
Proof. apply safe_substitute_single_pass; reflexivity. Defined.

(** X3.  ["$$"] after text without ["$"] gives a single ["$"], and what
    follows it is scanned afresh: ["$${NAME}"] is not a placeholder. *)
Theorem safe_substitute_escape (mapping : gmap string string) (pre post : string) :
  Template.no_delimiter pre = true →
  Template.safe_substitute (pre +:+ "$$" +:+ post) mapping
  = pre +:+ "$" +:+ Template.safe_substitute post mapping.
Proof.
  intros Hplain. unfold Template.safe_substitute.
  rewrite (TemplateFacts.pattern_sub_plain _ _ _ Hplain). reflexivity.
Qed.

Lemma safe_substitute_escape_witness :
  Template.safe_substitute ("cost: " +:+ "$$" +:+ "{SESSION_ID}")
    (variables "demo-1" "alice" "url" "pw" no_kwargs)
  = "cost: " +:+ "$" +:+ Template.safe_substitute "{SESSION_ID}"
                           (variables "demo-1" "alice" "url" "pw" no_kwargs).
Proof. apply safe_substitute_escape. reflexivity. Defined.

(** X4.  The output depends on the mapping only through the names that
    occur as placeholders in the template: two mappings that agree on
    those give the same text. *)
Theorem safe_substitute_depends_on_placeholders
    (template : string) (m1 m2 : gmap string string) :
  agree_on_placeholders template m1 m2 = true →
  Template.safe_substitute template m1 = Template.safe_substitute template m2.
Proof.
  unfold agree_on_placeholders, Template.safe_substitute, Template.pieces.
  rewrite !TemplateFacts.pattern_sub_pieces.
  induction (Template.pieces_from 0 template) as [|p ps IH]; [reflexivity |].
  cbn [forallb fmap list_fmap Template.join]. intros [Hp Hps]%andb_prop.
  change (list_fmap _ _ ?f ps) with (f <$> ps). rewrite (IH Hps). f_equal.
  destruct p as [c | [ | name | name | ]]; try reflexivity;
    cbn in Hp; apply bool_decide_eq_true in Hp; cbn; by rewrite Hp.
Qed.

Lemma safe_substitute_depends_on_placeholders_witness :
  Template.safe_substitute Sim.demo_template
    (variables "demo-1" "alice" "url" "alpha" no_kwargs)
  = Template.safe_substitute Sim.demo_template
      (variables "demo-1" "bob" "other" "beta" no_kwargs).
Proof. apply safe_substitute_depends_on_placeholders. vm_compute. reflexivity. Defined.

(** X5.  Whatever the arguments and options, the variables of
    [create_session] are the fifteen names of the template's contract, no
    more and no less. *)
Theorem variables_names (session_id user_id rootfs_url vscode_password : string)
    (kwargs : Kwargs) :
  dom (variables session_id user_id rootfs_url vscode_password kwargs) = variable_names.
Proof.
  unfold variables, variable_names. rewrite !dom_insert_L, dom_empty_L.
  apply set_eq. intros x. rewrite !elem_of_union, !elem_of_singleton.
  rewrite elem_of_empty. tauto.
Qed.

(** ** The creation loop, document by document *)

Section Loop.
Context `{P : Platform}.

Lemma delete_session_returns (self : DozlabSessionManager) (session_id : string) (w : World) :
  (delete_session self session_id w).1 = Return ().
Proof.
  rewrite delete_session_run.
  destruct (delete_namespaced Pod _ _ _) as [pod c1].
  destruct (delete_namespaced Service _ _ _) as [service c2].
  by destruct (delete_namespaced Secret _ _ _) as [secret c3].
Qed.

(** The four ways a pass of the loop body can go: the document is passed
    over; it is sent and accepted; it is sent and rejected, and the cleanup
    runs; reading it raises [AttributeError]. *)
Lemma create_resource_cases (self : DozlabSessionManager) (session_id : string)
    (resource : Yaml) (created : gmap string Ack) (w : World) :
  let r := create_resource self session_id resource created w in
  r = (Return created, w)
  ∨ (∃ kind ack cl line,
       is_str (kind_name kind) (document_kind resource) = true
       ∧ create_namespaced kind (namespace self) resource (cluster w) = (inr ack, cl)
       ∧ r = (Return (<[created_key kind := ack]> created),
              {| cluster := cl; entropy := entropy w; stdout := stdout w ++ [line];
                 calls := calls w ++ [CreateCall kind (namespace self) resource (inr ack)] |}))
  ∨ (∃ kind e cl line,
       is_str (kind_name kind) (document_kind resource) = true
       ∧ create_namespaced kind (namespace self) resource (cluster w) = (inl e, cl)
       ∧ r = (Raise (ApiError e),
              (delete_session self session_id
                 {| cluster := cl; entropy := entropy w; stdout := stdout w ++ [line];
                    calls := calls w
                      ++ [CreateCall kind (namespace self) resource (inl e)] |}).2))
  ∨ (∃ obj, r = (Raise (AttributeError obj "get"), w)).
Proof.
  cbv zeta. unfold create_resource.
  destruct (truthy resource); cbn [negb]; [| by left].
  assert (Hdispatch : ∀ kind name : Yaml,
    kind = document_kind resource →
    let r := try_except
      (if is_str "Pod" kind then
         pod ← api_create Pod (namespace self) resource;
         let created := <["pod" := pod]> created in
         print ("✓ Created Pod: " +:+ format_value name);;
         mret created
       else if is_str "Service" kind then
         service ← api_create Service (namespace self) resource;
         let created := <["service" := service]> created in
         print ("✓ Created Service: " +:+ format_value name);;
         mret created
       else if is_str "Secret" kind then
         secret ← api_create Secret (namespace self) resource;
         let created := <["secret" := secret]> created in
         print ("✓ Created Secret: " +:+ format_value name);;
         mret created
       else mret created)
      (λ e,
         print ("✗ Failed to create " +:+ format_value kind +:+ " "
                +:+ format_value name +:+ ": " +:+ reason e);;
         delete_session self session_id;;
         raise (ApiError e)) w in
    r = (Return created, w)
    ∨ (∃ kind ack cl line,
         is_str (kind_name kind) (document_kind resource) = true
         ∧ create_namespaced kind (namespace self) resource (cluster w) = (inr ack, cl)
         ∧ r = (Return (<[created_key kind := ack]> created),
                {| cluster := cl; entropy := entropy w; stdout := stdout w ++ [line];
                   calls := calls w
                     ++ [CreateCall kind (namespace self) resource (inr ack)] |}))
    ∨ (∃ kind e cl line,
         is_str (kind_name kind) (document_kind resource) = true
         ∧ create_namespaced kind (namespace self) resource (cluster w) = (inl e, cl)
         ∧ r = (Raise (ApiError e),
                (delete_session self session_id
                   {| cluster := cl; entropy := entropy w; stdout := stdout w ++ [line];
                      calls := calls w
                        ++ [CreateCall kind (namespace self) resource (inl e)] |}).2))
    ∨ (∃ obj, r = (Raise (AttributeError obj "get"), w))).
  { intros kind name ->.
    destruct (is_str "Pod" (document_kind resource)) eqn:Hpod;
      [| destruct (is_str "Service" (document_kind resource)) eqn:Hservice;
         [| destruct (is_str "Secret" (document_kind resource)) eqn:Hsecret]].
    4:{ by left. }
    all: right; cbv zeta; unfold try_except, mbind, py_bind;
      rewrite bind_unfold; unfold api_create;
      destruct (create_namespaced _ _ _ _) as [[e | ack] cl] eqn:Hcreate;
      cbn [answer_of log].
    all: match goal with
         | Hc : create_namespaced ?k _ _ _ = (inl ?e, ?cl) |- _ =>
             right; left; exists k, e, cl; eexists; split; [assumption |];
             split; [exact Hc |];
             unfold log; rewrite print_bind; cbn [cluster entropy stdout calls];
             rewrite bind_unfold;
             match goal with
             | |- context [delete_session ?s ?i ?w0] =>
                 pose proof (delete_session_returns s i w0) as Hret;
                 destruct (delete_session s i w0) as [out w1] eqn:Hrun
             end; cbn [fst snd] in Hret; subst out; unfold raise; f_equal;
             symmetry; exact (f_equal snd Hrun)
         | Hc : create_namespaced ?k _ _ _ = (inr ?ack, ?cl) |- _ =>
             left; exists k, ack, cl; eexists; split; [assumption |];
             split; [exact Hc |];
             unfold log; rewrite print_bind; reflexivity
         end. }
  unfold get.
  destruct resource as [ | | | | | entries | ];
    try (right; right; right; by eexists).
  unfold mbind, py_bind.
  destruct (dict_lookup "kind" entries) as [kind |] eqn:Hkind;
    rewrite ret_bind;
    (destruct (dict_lookup "metadata" entries) as [[ | | | | | meta | ] |];
     rewrite ret_bind; try (right; right; right; by eexists));
    try (destruct (dict_lookup "name" meta) as [name |]); rewrite ?ret_bind;
    cbn [dict_lookup]; rewrite ?ret_bind;
    apply Hdispatch; cbn [document_kind]; by rewrite Hkind.
Qed.

Lemma create_resources_trace (self : DozlabSessionManager) (session_id : string)
    (resources : list Yaml) (created : gmap string Ack) (w : World) :
  ∃ done : list submission,
    forallb well_kinded done = true
    ∧ loop_trace self session_id resources created w
        (create_resources self session_id resources created w) done.
Proof.
  revert created w. induction resources as [|resource rest IH]; intros created w.
  { exists []. split; [done |]. cbn. by rewrite app_nil_r. }
  cbn [create_resources]. unfold mbind, py_bind. rewrite bind_unfold.
  destruct (create_resource_cases self session_id resource created w)
    as [-> | [(kind & ack & cl & line & Hkind & Hcreate & ->)
           | [(kind & e & cl & line & Hkind & Hcreate & ->) | (obj & ->)]]].
  - destruct (IH created w) as (done & Hdone & Htrace). exists done. split; [done |].
    unfold loop_trace in *.
    destruct (create_resources self session_id rest created w).1 as [c | [e | e | o a]].
    + destruct Htrace as (Hsub & Hcalls & Hcreated). by split; [apply sublist_cons |].
    + destruct Htrace as (kind & manifest & w0 & Hsub & Hrest).
      exists kind, manifest, w0. by split; [apply sublist_cons |].
    + destruct Htrace as (Hsub & Hcalls). by split; [apply sublist_cons |].
    + destruct Htrace as (Hsub & Hcalls). by split; [apply sublist_cons |].
  - match goal with
    | |- context [create_resources self session_id rest ?c ?w1] =>
        destruct (IH c w1) as (done & Hdone & Htrace);
        destruct (create_resources self session_id rest c w1) as [out w2]
    end.
    exists ((kind, resource, ack) :: done).
    split; [cbn [forallb]; unfold well_kinded at 1; cbn [fst snd]; by rewrite Hkind |].
    unfold loop_trace in *. cbn [fst snd calls fmap list_fmap] in *.
    destruct out as [c | [e | e | o a]].
    + destruct Htrace as (Hsub & Hcalls & Hcreated).
      split; [by apply sublist_skip |]. split; [by rewrite Hcalls, <- app_assoc |].
      by rewrite Hcreated.
    + destruct Htrace as (kind' & manifest & w0 & Hsub & Hkind' & Hcalls & Hw).
      exists kind', manifest, w0. split; [by apply sublist_skip |].
      split; [done |]. split; [by rewrite Hcalls, <- app_assoc | done].
    + destruct Htrace as (Hsub & Hcalls).
      split; [by apply sublist_skip |]. by rewrite Hcalls, <- app_assoc.
    + destruct Htrace as (Hsub & Hcalls).
      split; [by apply sublist_skip |]. by rewrite Hcalls, <- app_assoc.
  - exists []. split; [done |]. unfold loop_trace. cbn [fst snd].
    eexists kind, resource, _. split; [apply sublist_skip, sublist_nil_l |].
    split; [done |]. split; [| reflexivity]. reflexivity.
  - exists []. split; [done |]. unfold loop_trace. cbn.
    split; [apply sublist_nil_l | by rewrite app_nil_r].
Qed.

(** The same for [create_session], whose requests are those of the loop
    over the documents parsed from the rendered template. *)
Lemma create_session_trace (self : DozlabSessionManager)
    (session_id user_id rootfs_url : string) (kwargs : Kwargs) (w w1 : World)
    (password : string) (resources : list Yaml) :
  resolve_password kwargs w = (Return password, w1) →
  safe_load_all (Template.safe_substitute (template self)
                   (variables session_id user_id rootfs_url password kwargs))
  = inr resources →
  ∃ done : list submission,
    forallb well_kinded done = true
    ∧ loop_trace self session_id resources ∅ w
        (create_session self session_id user_id rootfs_url kwargs w) done
    ∧ match create_resources self session_id resources ∅ w1 with
      | (Return created, w2) =>
          create_session self session_id user_id rootfs_url kwargs w
          = (Return created,
             {| cluster := cluster w2; entropy := entropy w2;
                stdout := stdout w2
                  ++ access_information session_id user_id rootfs_url password;
                calls := calls w2 |})
      | (Raise e, w2) =>
          create_session self session_id user_id rootfs_url kwargs w = (Raise e, w2)
      end.
Proof.
  intros Hpassword Hparse.
  assert (Hcalls1 : calls w1 = calls w).
  { destruct (resolve_password_run kwargs w) as (p & rest & Hrun).
    rewrite Hrun in Hpassword. by injection Hpassword as _ <-. }
  unfold create_session, mbind, py_bind. rewrite bind_unfold, Hpassword.
  rewrite provision_unfold, Hparse.
  destruct (create_resources_trace self session_id resources ∅ w1)
    as (done & Hdone & Htrace).
  exists done. split; [done |].
  unfold loop_trace in *. rewrite Hcalls1 in Htrace.
  destruct (create_resources self session_id resources ∅ w1) as [[created | e] w2];
    cbn [fst snd calls] in *; by split.
Qed.

End Loop.

(** ** The session orchestrator: more on creation *)

(** X6.  The loop goes through the documents strictly in order: running
    it on two lists put end to end is running it on the first and, when
    that returns, on the second with the dictionary and the world it left;
    when the first raises, the second is not looked at. *)
Theorem create_resources_app `{P : Platform}
    (self : DozlabSessionManager) (session_id : string)
    (first second : list Yaml) (created : gmap string Ack) (w : World) :
  create_resources self session_id (first ++ second) created w
  = match create_resources self session_id first created w with
    | (Return created1, w1) => create_resources self session_id second created1 w1
    | (Raise e, w1) => (Raise e, w1)
    end.
Proof.
  revert created w. induction first as [|resource rest IH]; intros created w;
    [reflexivity |].
  cbn [app create_resources]. unfold mbind, py_bind. rewrite !bind_unfold.
  destruct (create_resource self session_id resource created w) as [[created1 | e] w1];
    [apply IH | reflexivity].
Qed.

(** X7.  Documents that are false in Python (null, empty mapping, empty
    list, empty string, zero, [False]) play no part: the loop over a list of
    documents is the loop over its true documents. *)
Theorem create_resources_ignores_falsy `{P : Platform}
    (self : DozlabSessionManager) (session_id : string)
    (resources : list Yaml) (created : gmap string Ack) (w : World) :
  create_resources self session_id (List.filter truthy resources) created w
  = create_resources self session_id resources created w.
Proof.
  revert created w. induction resources as [|resource rest IH]; intros created w;
    [reflexivity |].
  cbn [List.filter create_resources]. unfold mbind, py_bind.
  destruct (truthy resource) eqn:Htruthy.
  - cbn [create_resources]. unfold mbind, py_bind. rewrite !bind_unfold.
    destruct (create_resource self session_id resource created w) as [[created1 | e] w1];
      [apply IH | reflexivity].
  - rewrite bind_unfold. unfold create_resource. rewrite Htruthy. cbn [negb].
    apply IH.
Qed.

(** X8.  When reading a document raises [AttributeError] (a document that
    is not a mapping, or whose [metadata] is not one), [create_session]
    raises it without any cleanup: every request of the call is a create
    request that was accepted, and no delete request is sent for the
    resources already created. *)
Theorem create_session_no_cleanup_on_malformed_document `{P : Platform}
    (self : DozlabSessionManager) (session_id user_id rootfs_url : string)
    (kwargs : Kwargs) (w : World) (obj : Yaml) (attr : string) :
  let r := create_session self session_id user_id rootfs_url kwargs w in
  r.1 = Raise (AttributeError obj attr) →
  ∃ log : list Call, calls r.2 = calls w ++ log ∧ forallb accepted log = true.
Proof.
  intros r Hraise. subst r.
  destruct (create_session_run self session_id user_id rootfs_url kwargs w)
    as (log & Hcalls & Hlog).
  rewrite Hraise in Hlog. by exists log.
Qed.

Lemma create_session_no_cleanup_witness :
  let r := create_session (P := Sim.platform malformed_table) malformed_manager
             "demo-1" "alice" "https://x/img.ext4" no_kwargs
             (Sim.boot malformed_table Sim.empty_cluster) in
  ∃ log : list Call,
    calls r.2 = calls (Sim.boot malformed_table Sim.empty_cluster) ++ log
    ∧ forallb accepted log = true.
Proof.
  refine (create_session_no_cleanup_on_malformed_document
            (P := Sim.platform malformed_table) malformed_manager
            "demo-1" "alice" "https://x/img.ext4" no_kwargs
            (Sim.boot malformed_table Sim.empty_cluster) (YStr "notes") "get" _).
  vm_compute. reflexivity.
Defined.

(** X9.  The create requests of [create_session] are for documents of the
    rendered template, in the order of the documents, each under the kind
    the document names and in the manager's namespace.  Unless a request
    is rejected nothing else is sent; the rejected request is the last
    create request and the three delete requests of the cleanup follow
    it. *)
Theorem create_session_requests_follow_documents `{P : Platform}
    (self : DozlabSessionManager) (session_id user_id rootfs_url : string)
    (kwargs : Kwargs) (w w1 : World) (password : string) (resources : list Yaml) :
  resolve_password kwargs w = (Return password, w1) →
  safe_load_all (Template.safe_substitute (template self)
                   (variables session_id user_id rootfs_url password kwargs))
  = inr resources →
  let r := create_session self session_id user_id rootfs_url kwargs w in
  ∃ (done : list submission) (tail : list Call),
    calls r.2 = calls w ++ (accepted_call self <$> done) ++ tail
    ∧ forallb well_kinded done = true
    ∧ match r.1 with
      | Raise (ApiError e) =>
          ∃ kind manifest pod service secret,
            tail = CreateCall kind (namespace self) manifest (inl e)
                   :: rollback self session_id pod service secret
            ∧ is_str (kind_name kind) (document_kind manifest) = true
            ∧ (done.*1.*2 ++ [manifest]) `sublist_of` resources
      | _ => tail = [] ∧ done.*1.*2 `sublist_of` resources
      end.
Proof.
  intros Hpassword Hparse r. subst r.
  destruct (create_session_trace self session_id user_id rootfs_url kwargs w w1
              password resources Hpassword Hparse) as (done & Hdone & Htrace & _).
  exists done. unfold loop_trace in Htrace.
  destruct (create_session self session_id user_id rootfs_url kwargs w)
    as [[created | [e | e | o a]] w2]; cbn [fst snd] in *.
  - destruct Htrace as (Hsub & Hcalls & _). exists [].
    by rewrite app_nil_r.
  - destruct Htrace as (kind & manifest & w0 & Hsub & Hkind & Hcalls & ->).
    rewrite delete_session_run.
    destruct (delete_namespaced Pod _ _ _) as [pod c1].
    destruct (delete_namespaced Service _ _ _) as [service c2].
    destruct (delete_namespaced Secret _ _ _) as [secret c3].
    cbn [snd calls]. eexists. split; [by rewrite Hcalls, <- !app_assoc |].
    split; [done |]. by exists kind, manifest, pod, service, secret.
  - destruct Htrace as (Hsub & Hcalls). exists []. by rewrite app_nil_r.
  - destruct Htrace as (Hsub & Hcalls). exists []. by rewrite app_nil_r.
Qed.

Lemma create_session_requests_follow_documents_witness :
  let r := create_session (P := Sim.platform Sim.demo_table) Sim.demo_manager
             "demo-1" "alice" "https://x/img.ext4" no_kwargs
             (Sim.boot Sim.demo_table service_taken) in
  ∃ (done : list submission) (tail : list Call),
    calls r.2 = calls (Sim.boot Sim.demo_table service_taken)
                ++ (accepted_call Sim.demo_manager <$> done) ++ tail
    ∧ forallb well_kinded done = true
    ∧ match r.1 with
      | Raise (ApiError e) =>
          ∃ kind manifest pod service secret,
            tail = CreateCall kind (namespace Sim.demo_manager) manifest (inl e)
                   :: rollback Sim.demo_manager "demo-1" pod service secret
            ∧ is_str (kind_name kind) (document_kind manifest) = true
            ∧ (done.*1.*2 ++ [manifest]) `sublist_of` Sim.demo_documents
      | _ => tail = [] ∧ done.*1.*2 `sublist_of` Sim.demo_documents
      end.
Proof.
  refine (create_session_requests_follow_documents
            (P := Sim.platform Sim.demo_table) Sim.demo_manager
            "demo-1" "alice" "https://x/img.ext4" no_kwargs
            (Sim.boot Sim.demo_table service_taken)
            {| cluster := service_taken : @Cluster (Sim.platform Sim.demo_table);
               entropy := 1%nat : @Entropy (Sim.platform Sim.demo_table);
               stdout := []; calls := [] |}
            "token-0" Sim.demo_documents _ _); reflexivity.
Defined.

(** X10.  When [create_session] returns, the last twelve lines it printed
    are the access information, with the session id, the user id, the
    image and the credential that was resolved. *)
Theorem create_session_prints_access_information `{P : Platform}
    (self : DozlabSessionManager) (session_id user_id rootfs_url : string)
    (kwargs : Kwargs) (w w1 : World) (password : string) (created : gmap string Ack) :
  resolve_password kwargs w = (Return password, w1) →
  let r := create_session self session_id user_id rootfs_url kwargs w in
  r.1 = Return created →
  ∃ before : list string,
    stdout r.2 = before ++ access_information session_id user_id rootfs_url password.
Proof.
  intros Hpassword r. subst r.
  unfold create_session, mbind, py_bind. rewrite bind_unfold, Hpassword.
  rewrite provision_unfold.
  destruct (safe_load_all _) as [e | resources]; [discriminate |].
  destruct (create_resources self session_id resources ∅ w1) as [[created1 | e] w2];
    [| discriminate].
  intros _. by exists (stdout w2).
Qed.

Lemma create_session_prints_access_information_witness :
  let r := create_session (P := Sim.platform Sim.demo_table) Sim.demo_manager
             "demo-1" "alice" "https://x/img.ext4"
             (with_password no_kwargs (Some "s3cret"))
             (Sim.boot Sim.demo_table Sim.empty_cluster) in
  ∃ before : list string,
    stdout r.2 = before
      ++ access_information "demo-1" "alice" "https://x/img.ext4" "s3cret".
Proof.
  refine (create_session_prints_access_information
            (P := Sim.platform Sim.demo_table) Sim.demo_manager
            "demo-1" "alice" "https://x/img.ext4"
            (with_password no_kwargs (Some "s3cret"))
            (Sim.boot Sim.demo_table Sim.empty_cluster)
            (Sim.boot Sim.demo_table Sim.empty_cluster) "s3cret"
            (<["secret" := Sim.manifest "Secret" "lab-session-demo-1-secrets"]>
               (<["service" := Sim.manifest "Service" "lab-service-demo-1"]>
                  (<["pod" := Sim.manifest "Pod" "lab-session-demo-1"]> ∅))) _ _).
  - reflexivity.
  - vm_compute. reflexivity.
Defined.

Lemma record_keys `{P : Platform} (log : list Call) (created : gmap string Ack) :
  (∀ key, is_Some (foldl record created log !! key) →
          is_Some (created !! key) ∨ key = "pod" ∨ key = "service" ∨ key = "secret")
  ∧ ∀ kind,
      is_Some (foldl record created log !! created_key kind)
      ↔ is_Some (created !! created_key kind) ∨ existsb (accepted_as kind) log = true.
Proof.
  revert created. induction log as [|c log IH]; intros created; cbn [foldl existsb].
  { split; [by left |]. intros kind. split; [by left | by intros [? | ?]]. }
  destruct (IH (record created c)) as [Hdom Hkeys]. split.
  - intros key Hkey. apply Hdom in Hkey as [Hkey | Hkey]; [| by right].
    destruct c as [k ns m [e | ack] | |]; cbn [record] in Hkey; try by left.
    apply lookup_insert_is_Some in Hkey as [<- | [_ Hkey]]; [| by left].
    right. destruct k; cbn; tauto.
  - intros kind. rewrite Hkeys.
    destruct c as [k ns m [e | ack] | |]; cbn [record accepted_as orb]; try tauto.
    rewrite lookup_insert_is_Some. case_bool_decide as Hk; cbn [orb].
    + subst k. split; [by right | by intros; left; left].
    + split.
      * intros [[Heq | [_ ?]] | ?]; [| by left | by right].
        by destruct k, kind.
      * intros [? | ?]; [| by right]. left. right. split; [| done].
        by destruct k, kind.
Qed.

(** X11.  The dictionary [create_session] returns has no key but [pod],
    [service] and [secret], and has the key of a kind exactly when a create
    request of that kind was accepted during the call. *)
Theorem create_session_result_keys `{P : Platform}
    (self : DozlabSessionManager) (session_id user_id rootfs_url : string)
    (kwargs : Kwargs) (w : World) (created : gmap string Ack) :
  let r := create_session self session_id user_id rootfs_url kwargs w in
  r.1 = Return created →
  dom created ⊆ {[ "pod"; "service"; "secret" ]}
  ∧ ∀ kind : Kind,
      is_Some (created !! created_key kind)
      ↔ existsb (accepted_as kind) (drop (length (calls w)) (calls r.2)) = true.
Proof.
  intros r Hreturn. subst r.
  destruct (create_session_run self session_id user_id rootfs_url kwargs w)
    as (log & Hcalls & Hlog).
  rewrite Hreturn in Hlog. destruct Hlog as [_ ->].
  rewrite Hcalls, drop_app_length.
  destruct (record_keys log ∅) as [Hdom Hkeys]. split.
  - intros key Hkey. apply elem_of_dom, Hdom in Hkey.
    rewrite lookup_empty in Hkey. rewrite !elem_of_union, !elem_of_singleton.
    destruct Hkey as [[? [=]] | Hkey]; tauto.
  - intros kind. rewrite Hkeys, lookup_empty. split; [| by right].
    intros [[? [=]] | ?]; done.
Qed.

Lemma create_session_result_keys_witness :
  let r := create_session (P := Sim.platform Sim.demo_table) Sim.demo_manager
             "demo-1" "alice" "https://x/img.ext4" no_kwargs
             (Sim.boot Sim.demo_table Sim.empty_cluster) in
  dom (<["secret" := Sim.manifest "Secret" "lab-session-demo-1-secrets"]>
         (<["service" := Sim.manifest "Service" "lab-service-demo-1"]>
            (<["pod" := Sim.manifest "Pod" "lab-session-demo-1"]> (∅ : gmap string Yaml))))
    ⊆ {[ "pod"; "service"; "secret" ]}
  ∧ ∀ kind : Kind,
      is_Some ((<["secret" := Sim.manifest "Secret" "lab-session-demo-1-secrets"]>
                  (<["service" := Sim.manifest "Service" "lab-service-demo-1"]>
                     (<["pod" := Sim.manifest "Pod" "lab-session-demo-1"]>
                        (∅ : gmap string Yaml)))) !! created_key kind)
      ↔ existsb (accepted_as kind)
          (drop (length (calls (Sim.boot Sim.demo_table Sim.empty_cluster))) (calls r.2))
        = true.
Proof.
  refine (create_session_result_keys
            (P := Sim.platform Sim.demo_table) Sim.demo_manager
            "demo-1" "alice" "https://x/img.ext4" no_kwargs
            (Sim.boot Sim.demo_table Sim.empty_cluster) _ _).
  vm_compute. reflexivity.
Defined.

(** X12.  Through the command line the credential is always generated and
    every option but the two numbers has its default: [main] passes
    [vm_cpu] and [vm_memory] only, so [create_session] draws a token and
    goes on with it, and its variables are those of a call without options
    except for [VM_CPU] and [VM_MEMORY], the decimal texts of the two
    numbers. *)
Theorem main_create_generates_password `{P : Platform}
    (self : DozlabSessionManager) (session_id user_id rootfs_url : string)
    (cpus megabytes : Z) (w : World) :
  create_session self session_id user_id rootfs_url (main_kwargs cpus megabytes) w
  = provision self session_id user_id rootfs_url
      (token_urlsafe 32 (entropy w)).1 (main_kwargs cpus megabytes)
      {| cluster := cluster w; entropy := (token_urlsafe 32 (entropy w)).2;
         stdout := stdout w; calls := calls w |}
  ∧ ∀ password : string,
      variables session_id user_id rootfs_url password (main_kwargs cpus megabytes)
      = <["VM_CPU" := pretty cpus]> (
        <["VM_MEMORY" := pretty megabytes]> (
        variables session_id user_id rootfs_url password no_kwargs)).
Proof.
  split.
  - unfold create_session, mbind, py_bind. rewrite bind_unfold.
    unfold resolve_password, _generate_password. cbn [vscode_password main_kwargs].
    by destruct (token_urlsafe 32 (entropy w)).
  - intros password. unfold variables, main_kwargs, no_kwargs.
    cbn [disk_size vm_cpu vm_memory terminal_image vm_memory_limit vm_cpu_limit
         vm_memory_request vm_cpu_request kernel_size_limit vm_data_size_limit
         vscode_data_size_limit default].
    unfold id.
    generalize (pretty cpus) (pretty megabytes) (pretty 1%Z) (pretty 1024%Z).
    intros cpu memory cpu0 memory0. vm_compute. reflexivity.
Qed.

(** ** Deletion and cleanup against a lawful server *)

Lemma delete_session_absent_after `{P : Platform} `{!DeleteLaws P}
    (self : DozlabSessionManager) (session_id : string) (w : World) :
  let r := delete_session self session_id w in
  forallb cleared (drop (length (calls w)) (calls r.2)) = true →
  absent Pod (pod_name session_id) (namespace self) (cluster r.2)
  ∧ absent Service (service_name session_id) (namespace self) (cluster r.2)
  ∧ absent Secret (secret_name session_id) (namespace self) (cluster r.2).
Proof.
  cbv zeta. rewrite (delete_session_run self session_id w).
  destruct (delete_namespaced Pod _ _ _) as [pod c1] eqn:Hpod.
  destruct (delete_namespaced Service _ _ _) as [service c2] eqn:Hservice.
  destruct (delete_namespaced Secret _ _ _) as [secret c3] eqn:Hsecret.
  cbn [fst snd calls cluster]. rewrite drop_app_length. cbn [forallb cleared].
  intros Hcleared.
  assert (Hgone : ∀ kind name cl cl' answer,
            delete_namespaced kind name (namespace self) cl = (answer, cl') →
            match answer with inl e => (status e =? 404)%Z | inr _ => true end = true →
            absent kind name (namespace self) cl').
  { intros kind name cl cl' [e | []] Hrun Hanswer.
    - apply (absent_after_404 _ _ _ _ _ _ Hrun). by apply Z.eqb_eq.
    - exact (absent_after_delete _ _ _ _ _ Hrun). }
  apply andb_prop in Hcleared as [H1 Hcleared].
  apply andb_prop in Hcleared as [H2 Hcleared].
  apply andb_prop in Hcleared as [H3 _].
  pose proof (Hgone _ _ _ _ _ Hpod H1) as Apod.
  pose proof (Hgone _ _ _ _ _ Hservice H2) as Aservice.
  pose proof (Hgone _ _ _ _ _ Hsecret H3) as Asecret.
  pose proof (absent_preserved _ _ _ _ _ _ _ _ _ Apod Hservice) as Apod2.
  pose proof (absent_preserved _ _ _ _ _ _ _ _ _ Apod2 Hsecret) as Apod3.
  pose proof (absent_preserved _ _ _ _ _ _ _ _ _ Aservice Hsecret) as Aservice3.
  done.
Qed.

(** X13.  Against a server that keeps the laws of deletion, after a
    [delete_session] none of whose delete requests failed for a reason
    other than 404, the pod, the service and the secret of the session are
    all absent from the cluster. *)
Theorem delete_session_removes_resources `{P : Platform} `{!DeleteLaws P}
    (self : DozlabSessionManager) (session_id : string) (w : World) :
  let r := delete_session self session_id w in
  forallb cleared (drop (length (calls w)) (calls r.2)) = true →
  absent Pod (pod_name session_id) (namespace self) (cluster r.2)
  ∧ absent Service (service_name session_id) (namespace self) (cluster r.2)
  ∧ absent Secret (secret_name session_id) (namespace self) (cluster r.2).
Proof. apply delete_session_absent_after. Qed.

Lemma delete_session_removes_resources_witness :
  let r := delete_session (P := Sim.platform Sim.demo_table) Sim.demo_manager "demo-1"
             (Sim.boot Sim.demo_table demo_cluster) in
  absent Pod (pod_name "demo-1") (namespace Sim.demo_manager) (cluster r.2)
  ∧ absent Service (service_name "demo-1") (namespace Sim.demo_manager) (cluster r.2)
  ∧ absent Secret (secret_name "demo-1") (namespace Sim.demo_manager) (cluster r.2).
Proof.
  refine (delete_session_removes_resources (P := Sim.platform Sim.demo_table)
            Sim.demo_manager "demo-1" (Sim.boot Sim.demo_table demo_cluster) _).
  vm_compute. reflexivity.
Defined.

Lemma create_session_failure_world `{P : Platform}
    (self : DozlabSessionManager) (session_id user_id rootfs_url : string)
    (kwargs : Kwargs) (w : World) (e : ApiException) :
  let r := create_session self session_id user_id rootfs_url kwargs w in
  r.1 = Raise (ApiError e) →
  ∃ (w0 : World) (sent : list Call),
    calls w0 = calls w ++ sent ∧ r.2 = (delete_session self session_id w0).2.
Proof.
  cbv zeta. intros Hraise.
  destruct (resolve_password_run kwargs w) as (password & rest & Hpassword).
  destruct (safe_load_all (Template.safe_substitute (template self)
              (variables session_id user_id rootfs_url password kwargs)))
    as [err | resources] eqn:Hparse.
  { revert Hraise. unfold create_session, mbind, py_bind.
    rewrite bind_unfold, Hpassword, provision_unfold, Hparse. discriminate. }
  destruct (create_session_trace self session_id user_id rootfs_url kwargs w _
              password resources Hpassword Hparse) as (done & _ & Htrace & _).
  unfold loop_trace in Htrace. rewrite Hraise in Htrace.
  destruct Htrace as (kind & manifest & w0 & _ & _ & Hcalls & Hworld).
  by exists w0, ((accepted_call self <$> done)
                 ++ [CreateCall kind (namespace self) manifest (inl e)]).
Qed.

(** X14.  Against a server that keeps the laws of deletion, when
    [create_session] raises an [ApiException] and none of the delete
    requests of its cleanup failed for a reason other than 404, no pod,
    service or secret of the session is left in the cluster, whether this
    call had created it or it was there before. *)
Theorem create_session_cleanup_leaves_nothing `{P : Platform} `{!DeleteLaws P}
    (self : DozlabSessionManager) (session_id user_id rootfs_url : string)
    (kwargs : Kwargs) (w : World) (e : ApiException) :
  let r := create_session self session_id user_id rootfs_url kwargs w in
  r.1 = Raise (ApiError e) →
  forallb cleared (drop (length (calls w)) (calls r.2)) = true →
  absent Pod (pod_name session_id) (namespace self) (cluster r.2)
  ∧ absent Service (service_name session_id) (namespace self) (cluster r.2)
  ∧ absent Secret (secret_name session_id) (namespace self) (cluster r.2).
Proof.
  cbv zeta. intros Hraise.
  destruct (create_session_failure_world self session_id user_id rootfs_url kwargs w e
              Hraise) as (w0 & sent & Hcalls & ->).
  intros Hcleared. apply delete_session_absent_after.
  revert Hcleared. rewrite (delete_session_run self session_id w0).
  destruct (delete_namespaced Pod _ _ _) as [pod c1].
  destruct (delete_namespaced Service _ _ _) as [service c2].
  destruct (delete_namespaced Secret _ _ _) as [secret c3].
  cbn [snd calls]. rewrite Hcalls, <- app_assoc.
  rewrite drop_app_length, forallb_app. intros [_ Hthree]%andb_prop.
  rewrite (app_assoc (calls w) sent), drop_app_length. exact Hthree.
Qed.

Lemma create_session_cleanup_leaves_nothing_witness :
  let r := create_session (P := Sim.platform Sim.demo_table) Sim.demo_manager
             "demo-1" "alice" "https://x/img.ext4" no_kwargs
             (Sim.boot Sim.demo_table service_taken) in
  absent Pod (pod_name "demo-1") (namespace Sim.demo_manager) (cluster r.2)
  ∧ absent Service (service_name "demo-1") (namespace Sim.demo_manager) (cluster r.2)
  ∧ absent Secret (secret_name "demo-1") (namespace Sim.demo_manager) (cluster r.2).
Proof.
  refine (create_session_cleanup_leaves_nothing (P := Sim.platform Sim.demo_table)
            Sim.demo_manager "demo-1" "alice" "https://x/img.ext4" no_kwargs
            (Sim.boot Sim.demo_table service_taken)
            {| status := 409; reason := "Conflict"; body := "" |} _ _);
    vm_compute; reflexivity.
Defined.

(** ** The session inspector: requests and listing *)

(** X15.  [get_session_status] sends one request, the read of the pod
    named after the session in the manager's namespace, and draws no
    randomness.  It returns [None] exactly when the read was answered with
    an [ApiException], of whatever status; it raises [AttributeError] when
    the pod that was read carries no labels; and it returns a status
    otherwise. *)
Theorem get_session_status_single_read `{P : Platform}
    (self : DozlabSessionManager) (session_id : string) (w : World) :
  let r := get_session_status self session_id w in
  let answer := read_namespaced_pod (pod_name session_id) (namespace self) (cluster w) in
  calls r.2 = calls w ++ [ReadPodCall (pod_name session_id) (namespace self) answer.1]
  ∧ cluster r.2 = answer.2
  ∧ entropy r.2 = entropy w
  ∧ (r.1 = Return None ↔ succeeded answer.1 = false)
  ∧ match answer.1 with
    | inl _ => r.1 = Return None
    | inr pod =>
        match labels pod with
        | None => r.1 = Raise (AttributeError YNull "get")
        | Some _ => ∃ st : SessionStatus, r.1 = Return (Some st)
        end
    end.
Proof.
  cbv zeta. unfold get_session_status, pod_labels. run_py.
  destruct (read_namespaced_pod _ _ _) as [[e | pod] cl]; cbn [fst snd succeeded].
  - destruct (status e =? 404)%Z; cbn [fst snd cluster entropy stdout calls];
      (do 3 (split; [reflexivity |])); done.
  - destruct (labels pod) as [ls |]; cbn [fst snd cluster entropy stdout calls];
      (do 3 (split; [reflexivity |])); (split; [split; discriminate |]);
      [by eexists | reflexivity].
Qed.

Section Listed.
Context `{P : Platform} `{!Listing P}.

Lemma print_rows_run (pods : list (V1Pod ContainerState)) (w : World) :
  print_rows pods w
  = (if all_labelled pods then Return () else Raise (AttributeError YNull "get"),
     {| cluster := cluster w; entropy := entropy w;
        stdout := stdout w ++ labelled_rows pods;
        calls := calls w |}).
Proof.
  revert w. induction pods as [|pod pods IH]; intros w;
    cbn [print_rows all_labelled labelled_rows forallb].
  - run_py. rewrite app_nil_r. by destruct w.
  - unfold mbind, py_bind, pod_labels. rewrite bind_unfold.
    destruct (labels pod) as [ls |]; cbn [ret raise andb].
    + rewrite print_bind, IH.
      cbn [cluster entropy stdout calls]. by rewrite <- app_assoc.
    + rewrite app_nil_r. by destruct w.
Qed.

Lemma labelled_rows_all (pods : list (V1Pod ContainerState)) :
  all_labelled pods = true →
  labelled_rows pods = (λ pod, session_row (default ∅ (labels pod)) pod) <$> pods.
Proof.
  induction pods as [|pod pods IH]; [reflexivity |].
  cbn [all_labelled labelled_rows forallb fmap list_fmap].
  destruct (labels pod) as [ls |]; [| discriminate].
  intros Hrest. cbn [andb] in Hrest. f_equal. by apply IH.
Qed.

(** X16.  [list_sessions] asks for the pods labelled [app=lab-environment]
    in the manager's namespace.  An [ApiException] gives the empty list
    and an error line; no pod gives the empty list and "No active sessions
    found"; otherwise it prints a title with the number of pods, a rule,
    the column titles and a rule, and then, the listed pods all carrying
    labels, one row per pod in the same order, and returns the pods as the
    server listed them.  Should a listed pod carry no labels, the rows stop
    before it and the lookup of its [session-id] label raises. *)
Theorem list_sessions_outcomes (self : DozlabSessionManager) (w : World) :
  let r := list_sessions self w in
  let answer := list_namespaced_pod (namespace self) "app=lab-environment" (cluster w) in
  cluster r.2 = answer.2
  ∧ calls r.2 = calls w
  ∧ match answer.1 with
    | inl e =>
        r.1 = Return []
        ∧ stdout r.2 = stdout w ++ ["Error listing sessions: " +:+ reason e]
    | inr [] =>
        r.1 = Return []
        ∧ stdout r.2 = stdout w ++ ["No active sessions found"]
    | inr pods =>
        if all_labelled pods
        then
          r.1 = Return pods
          ∧ stdout r.2 = stdout w ++
              [String "010" "" +:+ "Active Sessions (" +:+ pretty (length pods) +:+ "):";
               times "-" 80;
               ljust "SESSION ID" 20 +:+ " " +:+ ljust "USER ID" 15 +:+ " "
               +:+ ljust "STATUS" 15 +:+ " " +:+ "AGE";
               times "-" 80]
              ++ ((λ pod, session_row (default ∅ (labels pod)) pod) <$> pods)
        else
          r.1 = Raise (AttributeError YNull "get")
          ∧ stdout r.2 = stdout w ++
              [String "010" "" +:+ "Active Sessions (" +:+ pretty (length pods) +:+ "):";
               times "-" 80;
               ljust "SESSION ID" 20 +:+ " " +:+ ljust "USER ID" 15 +:+ " "
               +:+ ljust "STATUS" 15 +:+ " " +:+ "AGE";
               times "-" 80]
              ++ labelled_rows pods
    end.
Proof.
  cbv zeta. unfold list_sessions, try_except, mbind, py_bind.
  rewrite bind_unfold. unfold api_list_pods.
  destruct (list_namespaced_pod _ _ _) as [[e | [|pod pods]] cl];
    cbn [answer_of fst snd].
  - by rewrite print_bind.
  - by rewrite print_bind.
  - repeat (rewrite print_bind; cbn [cluster entropy stdout calls]).
    rewrite bind_unfold, print_rows_run. cbn [cluster entropy stdout calls fst snd].
    destruct (all_labelled (pod :: pods)) eqn:Hall;
      cbn [cluster entropy stdout calls fst snd]; repeat split;
      rewrite <- ?app_assoc; cbn [app]; by rewrite ?(labelled_rows_all _ Hall).
Qed.

Lemma length_times (n : nat) : String.length (times " " n) = n.
Proof. induction n as [|n IH]; cbn; [done | by rewrite IH]. Qed.

Lemma ljust_length (s : string) (width : nat) :
  String.length (ljust s width) = Nat.max (String.length s) width.
Proof. unfold ljust. rewrite length_append, length_times. lia. Qed.

(** X17.  A row of the listing is made of three columns and the creation
    time.  A column is the value (the session id, the user id, or ["N/A"]
    for a pod without the label, and the phase), as it is and never cut,
    then spaces up to the width (20, 15 and 15), then one space: its
    length is the width plus one, or the length of the value plus one for
    a value longer than the width. *)
Theorem session_row_columns (ls : gmap string string) (pod : V1Pod ContainerState) :
  let session_id := default "N/A" (ls !! "session-id") in
  let user_id := default "N/A" (ls !! "user-id") in
  let column (value : string) (width : nat) :=
    value +:+ times " " (width - String.length value) +:+ " " in
  session_row ls pod
  = column session_id 20 +:+ column user_id 15 +:+ column (pod_phase pod) 15
    +:+ creation_timestamp pod
  ∧ String.length (column session_id 20) = S (Nat.max (String.length session_id) 20)
  ∧ String.length (column user_id 15) = S (Nat.max (String.length user_id) 15)
  ∧ String.length (column (pod_phase pod) 15)
    = S (Nat.max (String.length (pod_phase pod)) 15).
Proof.
  cbv zeta. unfold session_row, ljust.
  rewrite !append_assoc, !length_append, !length_times. cbn [String.length].
  repeat split; lia.
Qed.

End Listed.
